(** * Product catalog API handler ([pages/api/products.js])

    A shallow embedding of the Next.js API route that serves the product
    catalog, and the properties its specification states about it.

    The route keeps the whole catalog as one JSON value under the Redis key
    ["products"], seeds it from [data/products.json] when the key holds
    nothing, and answers GET (list, lookup by id, search by title), POST
    (append a product) and DELETE (remove by id list).

    Modelling choices, all taken from the source:
    - JavaScript values are the inductive type [value]; request bodies,
      query parameters and the stored catalog are untyped in the source, so
      they are [value]s here and every property access or method call that
      can throw a [TypeError] in JavaScript can throw in the model;
    - the asynchronous helpers are sequential ([await] at every call), so
      they are functions in a state-and-exception monad [M] over a [World]
      holding the Redis key, the seed file, the clock and the environment;
    - strings are [string]s of 8-bit characters; the builtin
      [String.prototype.toLowerCase] is a parameter of the route, as
      [JSON.parse] is, so that every theorem holds of the real function;
      [toLowerCase_ascii] is what it does on ASCII text and is used at the
      sample data;
    - numbers inside JSON payloads are integers: the route only tests them
      for truthiness and identity. *)

From Stdlib Require Import String Ascii List ZArith Bool Lia Arith.
From Stdlib Require Import DecimalString.
From Stdlib Require Import DecimalPos DecimalZ.
Import ListNotations.
Local Open Scope string_scope.
Local Open Scope Z_scope.

(** ** JavaScript values *)

#[warnings="-register-all"]
Inductive value : Type :=
| VUndefined
| VNull
| VBool (b : bool)
| VNum (n : Z)
| VStr (s : string)
| VArr (items : list value)
| VObj (fields : list (string * value)).

(** [!v] is [negb (truthy v)]: [undefined], [null], [false], [0] and the
    empty string are falsy, every array and object is truthy. *)
Definition truthy (v : value) : bool :=
  match v with
  | VUndefined | VNull => false
  | VBool b => b
  | VNum n => negb (n =? 0)
  | VStr s => negb (s =? "")%string
  | VArr _ | VObj _ => true
  end.

(** [a || b] and [a && b] on values. *)
Definition js_or (a b : value) : value := if truthy a then a else b.
Definition js_and (a b : value) : value := if truthy a then b else a.

(** [a === b].  [Array.prototype.includes] compares with SameValueZero,
    which differs from [===] on [NaN] only, so it is this function too.
    Two arrays or two objects are equal when they are the same reference;
    every comparison of the route has its operands from different sources
    (request against store, request against environment), so they never
    are. *)
Definition strict_equals (a b : value) : bool :=
  match a, b with
  | VUndefined, VUndefined => true
  | VNull, VNull => true
  | VBool x, VBool y => Bool.eqb x y
  | VNum x, VNum y => x =? y
  | VStr x, VStr y => (x =? y)%string
  | _, _ => false
  end.

(** Own property of an object literal or of a parsed JSON object. *)
Fixpoint lookup (k : string) (fields : list (string * value)) : value :=
  match fields with
  | [] => VUndefined
  | (k', v) :: rest => if (k =? k')%string then v else lookup k rest
  end.

(** ** Exceptions and fallible pure code *)

Inductive exn : Type :=
| JsError (message : string)
| TypeError (message : string).

Definition exn_message (e : exn) : string :=
  match e with JsError m | TypeError m => m end.

Inductive result (A : Type) : Type :=
| Ok (a : A)
| Throw (e : exn).
Arguments Ok {A} a.
Arguments Throw {A} e.

Definition rbind {A B} (r : result A) (k : A -> result B) : result B :=
  match r with Ok a => k a | Throw e => Throw e end.

(** [v.k] for the property names the route uses ([id], [title], [imageUrl],
    [description], [productUrl], [ids], [api_key]): none of them is a
    property of a string, number, boolean or array, nor inherited by a plain
    object.  Reading a property of [undefined] or [null] throws. *)
Definition get_prop (v : value) (k : string) : result value :=
  match v with
  | VUndefined => Throw (TypeError "Cannot read properties of undefined")
  | VNull => Throw (TypeError "Cannot read properties of null")
  | VObj fields => Ok (lookup k fields)
  | VBool _ | VNum _ | VStr _ | VArr _ => Ok VUndefined
  end.

(** [nullish v]: [v] is [undefined] or [null], the two values whose
    properties cannot be read. *)
Definition nullish (v : value) : bool :=
  match v with VUndefined | VNull => true | _ => false end.

(** The property [k] of a value that has properties. *)
Definition prop (k : string) (v : value) : value :=
  match v with VObj fields => lookup k fields | _ => VUndefined end.

(** ** Strings *)

(** [n.toString()] of an integer, in decimal. *)
Definition string_of_Z (n : Z) : string := NilZero.string_of_int (Z.to_int n).

Definition lower_ascii (c : ascii) : ascii :=
  let n := nat_of_ascii c in
  if (Nat.leb 65 n && Nat.leb n 90)%bool then ascii_of_nat (n + 32) else c.

(** [s.toLowerCase()] on a string of ASCII characters. *)
Fixpoint toLowerCase_ascii (s : string) : string :=
  match s with
  | EmptyString => EmptyString
  | String c rest => String (lower_ascii c) (toLowerCase_ascii rest)
  end.

(** [hay.includes(needle)]: [needle] occurs in [hay] at some position. *)
Fixpoint str_includes (hay needle : string) : bool :=
  (String.prefix needle hay
   || match hay with
      | EmptyString => false
      | String _ rest => str_includes rest needle
      end)%bool.

(** String conversion of a value, as a template literal does it. *)
Fixpoint to_String (v : value) : string :=
  match v with
  | VUndefined => "undefined"
  | VNull => "null"
  | VBool true => "true"
  | VBool false => "false"
  | VNum n => string_of_Z n
  | VStr s => s
  | VArr items =>
      (fix join (l : list value) : string :=
         match l with
         | [] => ""
         | x :: rest =>
             let sx := match x with
                       | VUndefined | VNull => ""
                       | _ => to_String x
                       end in
             match rest with
             | [] => sx
             | _ :: _ => sx ++ "," ++ join rest
             end
         end) items
  | VObj _ => "[object Object]"
  end.

(** ** Arrays with callbacks that may throw *)

(** [l.filter(f)] *)
Fixpoint filter_r (f : value -> result bool) (l : list value)
  : result (list value) :=
  match l with
  | [] => Ok []
  | x :: rest =>
      rbind (f x) (fun keep =>
      rbind (filter_r f rest) (fun rest' =>
      Ok (if keep then x :: rest' else rest')))
  end.

(** [l.find(f)]: the first element satisfying [f], else [undefined];
    elements after it are not visited. *)
Fixpoint find_r (f : value -> result bool) (l : list value) : result value :=
  match l with
  | [] => Ok VUndefined
  | x :: rest => rbind (f x) (fun hit => if hit then Ok x else find_r f rest)
  end.

(** [l.map(f)] *)
Fixpoint map_r (f : value -> result value) (l : list value)
  : result (list value) :=
  match l with
  | [] => Ok []
  | x :: rest =>
      rbind (f x) (fun y => rbind (map_r f rest) (fun ys => Ok (y :: ys)))
  end.

(** [ids.includes(x)] on an array. *)
Definition includes (ids : list value) (x : value) : bool :=
  existsb (fun i => strict_equals i x) ids.

(** A method of arrays called on a value: a [TypeError] unless the value is
    an array. *)
Definition as_array (method : string) (v : value) : result (list value) :=
  match v with
  | VArr items => Ok items
  | _ => Throw (TypeError (method ++ " is not a function"))
  end.

(** ** The world of a request

    [redis] is the module-level client: [redis_ready] is false when its
    construction threw.  [kv_products] is what [redis.get('products')]
    answers: the parsed value, or [null] for a missing key.  Every call to
    the client takes the next flag of [redis_faults] and throws when it is
    [true] (no flag left: the call succeeds).  [seed_file] is the text of
    [data/products.json], [None] when [fs.readFile] rejects.  [io_log]
    records the calls made, oldest first. *)

Inductive io_event : Type :=
| RedisGet
| RedisSet (v : value)
| FsReadFile.

Record World : Type := mkWorld {
  redis_ready : bool;
  kv_products : value;
  redis_faults : list bool;
  seed_file : option string;
  io_log : list io_event;
  date_now : Z;
  NODE_ENV : option string;
  API_KEY : option string
}.

Definition env_value (o : option string) : value :=
  match o with Some s => VStr s | None => VUndefined end.

Definition next_fault (w : World) : bool :=
  match redis_faults w with [] => false | b :: _ => b end.

(** One client call: consume a fault flag, record the event, maybe store. *)
Definition redis_call (ev : io_event) (store : value) (w : World) : World :=
  mkWorld (redis_ready w) store (tl (redis_faults w)) (seed_file w)
          (io_log w ++ [ev]) (date_now w) (NODE_ENV w) (API_KEY w).

Definition log_event (ev : io_event) (w : World) : World :=
  mkWorld (redis_ready w) (kv_products w) (redis_faults w) (seed_file w)
          (io_log w ++ [ev]) (date_now w) (NODE_ENV w) (API_KEY w).

(** ** The monad of the asynchronous helpers *)

Definition M (A : Type) : Type := World -> result A * World.

Definition ret {A} (a : A) : M A := fun w => (Ok a, w).
Definition throw {A} (e : exn) : M A := fun w => (Throw e, w).
Definition lift {A} (r : result A) : M A := fun w => (r, w).

Definition bind {A B} (m : M A) (k : A -> M B) : M B :=
  fun w => match m w with
           | (Ok a, w') => k a w'
           | (Throw e, w') => (Throw e, w')
           end.

(** [try { m } catch (e) { h e }]: the effects of [m] up to the throw stay. *)
Definition try_catch {A} (m : M A) (h : exn -> M A) : M A :=
  fun w => match m w with
           | (Ok a, w') => (Ok a, w')
           | (Throw e, w') => h e w'
           end.

Notation "x <- m ;; k" := (bind m (fun x => k))
  (at level 61, m at next level, right associativity).
Notation "m ;;; k" := (bind m (fun _ => k))
  (at level 61, right associativity).

(** [await redis.get('products')] *)
Definition redis_get : M value :=
  fun w =>
    let w' := redis_call RedisGet (kv_products w) w in
    if next_fault w then (Throw (JsError "redis.get failed"), w')
    else (Ok (kv_products w), w').

(** [await redis.set('products', v)] *)
Definition redis_set (v : value) : M unit :=
  fun w =>
    if next_fault w
    then (Throw (JsError "redis.set failed"),
          redis_call (RedisSet v) (kv_products w) w)
    else (Ok tt, redis_call (RedisSet v) v w).

(** [await fs.readFile(productsFilePath, 'utf-8')] *)
Definition fs_readFile : M string :=
  fun w =>
    let w' := log_event FsReadFile w in
    match seed_file w with
    | Some text => (Ok text, w')
    | None => (Throw (JsError "ENOENT: no such file or directory"), w')
    end.

(** ** The helpers of the route *)

Section Route.

(** [JSON.parse] on the text of the seed file: [None] when it throws a
    [SyntaxError]. *)
Variable JSON_parse : string -> option value.

(** [String.prototype.toLowerCase], the lower-casing of the JavaScript
    engine (it maps every cased letter of Unicode, not only [A]-[Z]). *)
Variable toLowerCase : string -> string.

Definition json_parse (text : string) : result value :=
  match JSON_parse text with
  | Some v => Ok v
  | None => Throw (JsError "Unexpected token in JSON")
  end.

Definition writeProducts (productsArray : value) : M unit :=
  fun w =>
    if negb (redis_ready w)
    then (Throw (JsError "Database connection not available"), w)
    else try_catch (redis_set productsArray)
           (fun _ => throw (JsError "Failed to save product data.")) w.

Definition readProducts : M value :=
  fun w =>
    if negb (redis_ready w)
    then (Throw (JsError "Database connection not available"), w)
    else
      try_catch
        (products <- redis_get ;;
         if negb (truthy products)
         then
           try_catch
             (fileData <- fs_readFile ;;
              initialProducts <- lift (json_parse fileData) ;;
              writeProducts initialProducts ;;;
              ret initialProducts)
             (fun _ => ret (VArr []))
         else ret products)
        (fun _ => throw (JsError "Failed to fetch products from database")) w.

Definition getProductById (productId : value) : M value :=
  products <- readProducts ;;
  items <- lift (as_array "products.find" products) ;;
  found <- lift (find_r (fun product =>
                   rbind (get_prop product "id") (fun pid =>
                   Ok (strict_equals pid productId))) items) ;;
  ret (js_or found VNull).

(** [receiver.toLowerCase()] on the value of the expression [receiver]:
    only strings have the method. *)
Definition call_toLowerCase (receiver : string) (v : value) : result string :=
  match v with
  | VStr s => Ok (toLowerCase s)
  | VUndefined | VNull =>
      Throw (TypeError "Cannot read properties of undefined")
  | _ => Throw (TypeError (receiver ++ ".toLowerCase is not a function"))
  end.

(** The callback of [searchProductsByTitle]:
    [product.title && product.title.toLowerCase().includes(searchTermLower)],
    read as a condition. *)
Definition title_matches (searchTermLower : string) (product : value)
  : result bool :=
  rbind (get_prop product "title") (fun title =>
  if truthy title
  then rbind (call_toLowerCase "product.title" title) (fun t =>
       Ok (str_includes t searchTermLower))
  else Ok false).

Definition searchProductsByTitle (searchTerm : value) : M value :=
  products <- readProducts ;;
  if negb (truthy searchTerm) then ret products
  else
    searchTermLower <- lift (call_toLowerCase "searchTerm" searchTerm) ;;
    items <- lift (as_array "products.filter" products) ;;
    kept <- lift (filter_r (title_matches searchTermLower) items) ;;
    ret (VArr kept).

Record DeleteResult : Type := mkDeleteResult {
  deletedCount : nat;
  deletedIds : list value;
  remainingCount : nat
}.

Definition id_listed (idsToDelete : list value) (product : value)
  : result bool :=
  rbind (get_prop product "id") (fun pid => Ok (includes idsToDelete pid)).

Definition deleteProductsByIds (idsToDelete : list value) : M DeleteResult :=
  try_catch
    (allProducts <- readProducts ;;
     items <- lift (as_array "allProducts.filter" allProducts) ;;
     remainingProducts <-
       lift (filter_r (fun product =>
               rbind (id_listed idsToDelete product) (fun b => Ok (negb b)))
             items) ;;
     writeProducts (VArr remainingProducts) ;;;
     listed <- lift (filter_r (id_listed idsToDelete) items) ;;
     deletedIds <- lift (map_r (fun product => get_prop product "id") listed) ;;
     ret (mkDeleteResult (length deletedIds) deletedIds
                         (length remainingProducts)))
    (fun _ => throw (JsError "Failed to delete products")).

(** ** Requests and responses

    Next.js hands the route [req.headers] and [req.query] as plain objects
    (header values are strings, query values strings or arrays of strings)
    and [req.body] as whatever the body parser produced: any JSON value, or
    a string. *)

Record Request : Type := mkRequest {
  method : string;
  headers : list (string * string);
  query : list (string * value);
  body : value
}.

Fixpoint header (k : string) (hs : list (string * string)) : option string :=
  match hs with
  | [] => None
  | (k', v) :: rest => if (k =? k')%string then Some v else header k rest
  end.

Inductive payload : Type :=
| NoBody
| Json (v : value)
| Text (s : string).

Record Response : Type := mkResponse {
  status : Z;
  res_headers : list (string * list string);
  res_body : payload
}.

Definition cors : list (string * list string) :=
  [ ("Access-Control-Allow-Origin", ["*"]);
    ("Access-Control-Allow-Methods", ["GET, POST, DELETE, OPTIONS"]);
    ("Access-Control-Allow-Headers", ["Content-Type, X-API-Key"]) ].

Definition respond (code : Z) (p : payload) : Response :=
  mkResponse code cors p.

(** The double-quote character, for messages that quote a word. *)
Definition dquote : string := String "034"%char EmptyString.

Definition placeholder_image : string :=
  "https://upload.wikimedia.org/wikipedia/commons/1/14/No_Image_Available.jpg".

(** [req.headers['x-api-key'] || req.query.api_key ||
     (req.body && req.body.api_key)] *)
Definition supplied_api_key (req : Request) : result value :=
  let h := env_value (header "x-api-key" (headers req)) in
  if truthy h then Ok h
  else
    let q := lookup "api_key" (query req) in
    if truthy q then Ok q
    else if truthy (body req) then get_prop (body req) "api_key"
         else Ok (body req).

(** The same choice as a total function: the header if truthy, else the
    query parameter if truthy, else [req.body && req.body.api_key]. *)
Definition api_key_of (req : Request) : value :=
  let h := env_value (header "x-api-key" (headers req)) in
  if truthy h then h
  else
    let q := lookup "api_key" (query req) in
    if truthy q then q else js_and (body req) (prop "api_key" (body req)).

Definition is_array (v : value) : bool :=
  match v with VArr _ => true | _ => false end.

Definition array_items (v : value) : list value :=
  match v with VArr items => items | _ => [] end.



(** Bodies that the validation of POST and of DELETE turns down. *)
Definition post_lacks_fields (b : value) : Prop :=
  truthy (prop "title" b) = false \/ truthy (prop "productUrl" b) = false.

Definition delete_lacks_ids (b : value) : Prop :=
  truthy (prop "ids" b) = false
  \/ is_array (prop "ids" b) = false
  \/ prop "ids" b = VArr [].

(** [req.headers.referer || ''] and [req.headers.host || ''] *)
Definition header_or_empty (k : string) (req : Request) : string :=
  match header k (headers req) with
  | Some s => s
  | None => ""
  end.

(** [referer && referer.includes(host)] *)
Definition same_origin (req : Request) : bool :=
  let referer := header_or_empty "referer" req in
  let host := header_or_empty "host" req in
  (negb (referer =? "")%string && str_includes referer host)%bool.

Definition development (w : World) : bool :=
  strict_equals (env_value (NODE_ENV w)) (VStr "development").

Definition validateApiKey (req : Request) (w : World) : result bool :=
  rbind (supplied_api_key req) (fun apiKey =>
  if development w then Ok true
  else if same_origin req then Ok true
  else
    let expectedApiKey := env_value (API_KEY w) in
    Ok (strict_equals apiKey expectedApiKey)).

Definition Date_now : M Z := fun w => (Ok (date_now w), w).

Definition newProduct (now : Z) (title imageUrl description productUrl : value)
  : value :=
  VObj [ ("id", VStr (string_of_Z now));
         ("title", title);
         ("imageUrl", js_or imageUrl (VStr placeholder_image));
         ("description", js_or description (VStr ""));
         ("productUrl", productUrl) ].

Definition error_body (message : string) (e : exn) : payload :=
  Json (VObj [ ("message", VStr message); ("error", VStr (exn_message e)) ]).

Definition handle_get (req : Request) : M Response :=
  let id := lookup "id" (query req) in
  let title := lookup "title" (query req) in
  if truthy id then
    product <- getProductById id ;;
    if truthy product then ret (respond 200 (Json product))
    else ret (respond 404 (Json (VObj
           [ ("message",
              VStr ("Product with ID " ++ to_String id ++ " not found")) ])))
  else if truthy title then
    filteredProducts <- searchProductsByTitle title ;;
    ret (respond 200 (Json filteredProducts))
  else
    products <- readProducts ;;
    ret (respond 200 (Json products)).

Definition handle_post (req : Request) : M Response :=
  try_catch
    (title <- lift (get_prop (body req) "title") ;;
     imageUrl <- lift (get_prop (body req) "imageUrl") ;;
     description <- lift (get_prop (body req) "description") ;;
     productUrl <- lift (get_prop (body req) "productUrl") ;;
     if (negb (truthy title) || negb (truthy productUrl))%bool then
       ret (respond 400 (Json (VObj
         [ ("message",
            VStr "Missing required fields: title and productUrl are required")
         ])))
     else
       now <- Date_now ;;
       let product := newProduct now title imageUrl description productUrl in
       products <- readProducts ;;
       items <- lift (as_array "products.push" products) ;;
       writeProducts (VArr (items ++ [product])) ;;;
       ret (respond 201 (Json product)))
    (fun error => ret (respond 500 (error_body "Error adding product" error))).

Definition delete_summary (r : DeleteResult) : value :=
  VObj [ ("message",
          VStr ("Successfully deleted "
                ++ string_of_Z (Z.of_nat (deletedCount r)) ++ " products"));
         ("deletedCount", VNum (Z.of_nat (deletedCount r)));
         ("deletedIds", VArr (deletedIds r));
         ("remainingCount", VNum (Z.of_nat (remainingCount r))) ].

Definition handle_delete (req : Request) : M Response :=
  try_catch
    (ids <- lift (get_prop (body req) "ids") ;;
     if (negb (truthy ids) || negb (is_array ids)
         || Nat.eqb (length (array_items ids)) 0)%bool then
       ret (respond 400 (Json (VObj
         [ ("message",
            VStr ("Request body must include an " ++ dquote ++ "ids" ++ dquote
                  ++ " array with at least one product ID"))
         ])))
     else
       result <- deleteProductsByIds (array_items ids) ;;
       ret (respond 200 (Json (delete_summary result))))
    (fun error =>
       ret (respond 500 (error_body "Error deleting products" error))).

Definition handler (req : Request) : M Response :=
  if (method req =? "OPTIONS")%string then ret (respond 200 NoBody)
  else
    isValid <- (if (method req =? "GET")%string then ret true
                else fun w => (validateApiKey req w, w)) ;;
    if negb isValid then
      ret (respond 401 (Json (VObj
             [ ("error", VStr "Invalid or missing API key") ])))
    else
      try_catch
        (if (method req =? "GET")%string then handle_get req
         else if (method req =? "POST")%string then handle_post req
         else if (method req =? "DELETE")%string then handle_delete req
         else
           ret (mkResponse 405
                  (cors ++ [ ("Allow", ["GET"; "POST"; "DELETE"]) ])
                  (Text ("Method " ++ method req ++ " Not Allowed"))))
        (fun error => ret (respond 500 (error_body "Server error" error))).

End Route.

(** ** Sample data

    A catalog of two products, a seed file with one, and a [JSON.parse]
    that knows the text of that file. *)

Definition blue_shirt : value :=
  VObj [ ("id", VStr "101"); ("title", VStr "Blue Shirt");
         ("imageUrl", VStr "https://shop.example/shirt.jpg");
         ("description", VStr "Cotton");
         ("productUrl", VStr "https://shop.example/shirt") ].

Definition red_hat : value :=
  VObj [ ("id", VStr "102"); ("title", VStr "Red Hat");
         ("imageUrl", VStr "https://shop.example/hat.jpg");
         ("description", VStr "");
         ("productUrl", VStr "https://shop.example/hat") ].

Definition seed_product : value :=
  VObj [ ("id", VStr "1"); ("title", VStr "Mug") ].

Definition quoted (s : string) : string := dquote ++ s ++ dquote.

Definition seed_text : string :=
  "[{" ++ quoted "id" ++ ":" ++ quoted "1" ++ ","
       ++ quoted "title" ++ ":" ++ quoted "Mug" ++ "}]".

Definition sample_parse (text : string) : option value :=
  if (text =? seed_text)%string then Some (VArr [seed_product])
  else if (text =? "[]")%string then Some (VArr [])
  else None.

Definition sample_world (stored : value) (file : option string)
           (faults : list bool) (secret : option string) : World :=
  mkWorld true stored faults file [] 1700000000000 (Some "production") secret.

(** The catalog is stored; a secret is configured. *)
Definition w_stored : World :=
  sample_world (VArr [blue_shirt; red_hat]) (Some seed_text) []
               (Some "s3cret").

(** Nothing is stored yet. *)
Definition w_absent : World :=
  sample_world VNull (Some seed_text) [] (Some "s3cret").

(** Nothing is stored and the seed file is missing. *)
Definition w_nofile : World := sample_world VNull None [] (Some "s3cret").

(** Every product was deleted: the key holds the empty array. *)
Definition w_emptied : World :=
  sample_world (VArr []) (Some seed_text) [] (Some "s3cret").

(** No secret is configured. *)
Definition w_open : World :=
  sample_world (VArr [blue_shirt; red_hat]) (Some seed_text) [] None.

Definition with_key : list (string * string) :=
  [ ("host", "shop.example"); ("x-api-key", "s3cret") ].

Definition post_mug : Request :=
  mkRequest "POST" with_key []
    (VObj [ ("title", VStr "Mug");
            ("productUrl", VStr "https://shop.example/mug") ]).

Definition post_blank_image : Request :=
  mkRequest "POST" with_key []
    (VObj [ ("title", VStr "Mug"); ("imageUrl", VStr "");
            ("productUrl", VStr "https://shop.example/mug") ]).

Definition post_untitled : Request :=
  mkRequest "POST" with_key []
    (VObj [ ("productUrl", VStr "https://shop.example/mug") ]).

Definition post_keyless : Request :=
  mkRequest "POST" [ ("host", "shop.example") ] []
    (VObj [ ("title", VStr "Mug");
            ("productUrl", VStr "https://shop.example/mug") ]).

(** An authorised POST and DELETE whose JSON body is [null]. *)
Definition post_null : Request := mkRequest "POST" with_key [] VNull.

Definition delete_null : Request := mkRequest "DELETE" with_key [] VNull.

(** A POST without key and without body: the body parser hands the empty
    string. *)
Definition post_keyless_no_body : Request :=
  mkRequest "POST" [ ("host", "shop.example") ] [] (VStr "").

Definition get_102 : Request :=
  mkRequest "GET" [ ("host", "shop.example") ] [ ("id", VStr "102") ]
            VUndefined.

(** ** Start-up logging and shapes of responses and invariants *)

(** The expression logged when the module loads:
    [process.env.KV_REST_API_URL ? `${url.substring(0, 15)}...` : 'undefined'] *)
Definition partialUrl (KV_REST_API_URL : option string) : string :=
  if truthy (env_value KV_REST_API_URL)
  then match KV_REST_API_URL with
       | Some url => substring 0 15 url ++ "..."
       | None => "undefined"
       end
  else "undefined".

(** Whether the [k]-th next call to the Redis client fails. *)
Definition fault_at (k : nat) (w : World) : bool :=
  nth k (redis_faults w) false.

(** The stored catalog is an array of values whose properties can be read:
    what the lookup, the search and the deletion need of it. *)
Definition well_formed_store (w : World) : Prop :=
  exists ps, kv_products w = VArr ps /\ Forall (fun p => nullish p = false) ps.

Definition allow_header : string * list string :=
  ("Allow", ["GET"; "POST"; "DELETE"]).

(** A computation keeps [I] when it leads from a world where [I] holds to
    one where it holds, whether it returns or throws. *)
Definition keeps (I : World -> Prop) {A} (m : M A) : Prop :=
  forall w, I w -> I (snd (m w)).

Definition delete_101 : Request :=
  mkRequest "DELETE" with_key [] (VObj [ ("ids", VArr [VStr "101"]) ]).

Definition delete_999 : Request :=
  mkRequest "DELETE" with_key [] (VObj [ ("ids", VArr [VStr "999"]) ]).

Definition put_mug : Request :=
  mkRequest "PUT" with_key []
    (VObj [ ("title", VStr "Mug") ]).

Definition get_all : Request :=
  mkRequest "GET" [ ("host", "shop.example") ] [] VUndefined.

Definition get_new : Request :=
  mkRequest "GET" [ ("host", "shop.example") ]
            [ ("id", VStr "1700000000000") ] VUndefined.

(** The key holds an object instead of an array. *)
Definition w_object : World :=
  sample_world (VObj [ ("items", VArr []) ]) (Some seed_text) []
               (Some "s3cret").

(** The write that follows the first read fails. *)
Definition w_write_fails : World :=
  sample_world (VArr [blue_shirt; red_hat]) (Some seed_text) [false; true]
               (Some "s3cret").

Definition get_two_titles : Request :=
  mkRequest "GET" [ ("host", "shop.example") ]
            [ ("title", VArr [VStr "shirt"; VStr "hat"]) ] VUndefined.

Definition get_two_ids : Request :=
  mkRequest "GET" [ ("host", "shop.example") ]
            [ ("id", VArr [VStr "101"; VStr "102"]) ] VUndefined.

Definition get_102_keyed : Request :=
  mkRequest "GET" [ ("host", "other.example"); ("x-api-key", "wrong") ]
            [ ("id", VStr "102") ] (VObj [ ("api_key", VStr "wrong") ]).

Definition post_from_site : Request :=
  mkRequest "POST"
    [ ("host", "shop.example"); ("referer", "https://shop.example/admin") ]
    []
    (VObj [ ("title", VStr "Mug");
            ("productUrl", VStr "https://shop.example/mug") ]).

(** Nothing is stored, and the first write to the store fails. *)
Definition w_absent_write_fails : World :=
  sample_world VNull (Some seed_text) [false; true] (Some "s3cret").

(** The client could not be constructed. *)
Definition w_down : World :=
  mkWorld false VNull [] (Some seed_text) [] 1700000000000
          (Some "production") (Some "s3cret").

(** * Properties *)

(** ** Strings: [includes] is the substring relation *)

Lemma prefix_app (a b : string) :
  String.prefix a b = true <-> exists t, b = (a ++ t)%string.
Proof.
  revert b; induction a as [|c a IH]; intros b; simpl.
  - split; [intros _; exists b; reflexivity | intros _; destruct b; reflexivity].
  - destruct b as [|d b]; simpl.
    + split; [discriminate | intros [t Ht]; discriminate].
    + destruct (ascii_dec c d) as [->|Hne].
      * rewrite IH. split; intros [t Ht]; exists t.
        -- now rewrite Ht.
        -- now inversion Ht.
      * split; [discriminate | intros [t Ht]; inversion Ht; subst; now elim Hne].
Qed.

Lemma str_includes_spec (hay needle : string) :
  str_includes hay needle = true
  <-> exists pre post, hay = (pre ++ needle ++ post)%string.
Proof.
  induction hay as [|c hay IH].
  - cbn [str_includes]. rewrite orb_false_r, prefix_app. split.
    + intros [t Ht]. exists "", t. exact Ht.
    + intros [pre [post H]]. destruct pre; [exists post; exact H | discriminate].
  - cbn [str_includes]. rewrite orb_true_iff, prefix_app, IH. split.
    + intros [[t Ht] | [pre [post H]]].
      * exists "", t. exact Ht.
      * exists (String c pre), post. simpl. now rewrite H.
    + intros [pre [post H]]. destruct pre as [|d pre].
      * left. exists post. exact H.
      * right. exists pre, post. simpl in H. now inversion H.
Qed.

(** ** Arrays: callbacks that do not throw *)

Lemma get_prop_ok (k : string) (v : value) :
  nullish v = false -> get_prop v k = Ok (prop k v).
Proof. destruct v; simpl; intros H; try discriminate; reflexivity. Qed.

Lemma truthy_not_nullish (v : value) : truthy v = true -> nullish v = false.
Proof. destruct v; simpl; intros H; try discriminate; reflexivity. Qed.

Lemma filter_r_total (f : value -> result bool) (g : value -> bool)
      (l : list value) :
  Forall (fun x => f x = Ok (g x)) l -> filter_r f l = Ok (filter g l).
Proof.
  induction 1 as [|x l Hx _ IH]; simpl; [reflexivity|].
  rewrite Hx, IH. simpl. reflexivity.
Qed.

Lemma map_r_total (f : value -> result value) (g : value -> value)
      (l : list value) :
  Forall (fun x => f x = Ok (g x)) l -> map_r f l = Ok (map g l).
Proof.
  induction 1 as [|x l Hx _ IH]; simpl; [reflexivity|].
  rewrite Hx, IH. reflexivity.
Qed.

Lemma find_r_total (f : value -> result bool) (g : value -> bool)
      (l : list value) :
  Forall (fun x => f x = Ok (g x)) l ->
  find_r f l = Ok (match find g l with Some x => x | None => VUndefined end).
Proof.
  induction 1 as [|x l Hx _ IH]; simpl; [reflexivity|].
  rewrite Hx. simpl. destruct (g x); [reflexivity | exact IH].
Qed.

Lemma Forall_filter {A} (P : A -> Prop) (g : A -> bool) (l : list A) :
  Forall P l -> Forall P (filter g l).
Proof.
  induction 1 as [|x l Hx _ IH]; simpl; [constructor|].
  destruct (g x); [constructor; assumption | assumption].
Qed.

Lemma filter_split_length {A} (g : A -> bool) (l : list A) :
  (length (filter g l) + length (filter (fun x => negb (g x)) l))%nat
  = length l.
Proof.
  induction l as [|x l IH]; simpl; [reflexivity|].
  destruct (g x); simpl; lia.
Qed.

(** ** The store accessor *)

Section Accessor.

Variable JSON_parse : string -> option value.
Variable toLowerCase : string -> string.

(** A successful write: the value is stored and the call is logged. *)
Lemma writeProducts_ok (v : value) (w : World) :
  redis_ready w = true -> next_fault w = false ->
  writeProducts v w = (Ok tt, redis_call (RedisSet v) v w).
Proof.
  intros Hr Hf. unfold writeProducts, try_catch, redis_set.
  rewrite Hr, Hf. reflexivity.
Qed.

(** A failed write: the store keeps its value. *)
Lemma writeProducts_fault (v : value) (w : World) :
  redis_ready w = true -> next_fault w = true ->
  writeProducts v w
  = (Throw (JsError "Failed to save product data."),
     redis_call (RedisSet v) (kv_products w) w).
Proof.
  intros Hr Hf. unfold writeProducts, try_catch, redis_set, throw.
  rewrite Hr, Hf. reflexivity.
Qed.

(** A truthy stored value is returned as it is, after one [get]. *)
Lemma readProducts_stored (w : World) :
  redis_ready w = true -> next_fault w = false ->
  truthy (kv_products w) = true ->
  readProducts JSON_parse w
  = (Ok (kv_products w), redis_call RedisGet (kv_products w) w).
Proof.
  intros Hr Hf Ht. unfold readProducts, try_catch, bind, redis_get.
  rewrite Hr, Hf. simpl. rewrite Ht. reflexivity.
Qed.

(** [readProducts] answers only through an initialised client, and leaves
    it initialised. *)
Lemma readProducts_ready (w w1 : World) (v : value) :
  readProducts JSON_parse w = (Ok v, w1) -> redis_ready w1 = true.
Proof.
  unfold readProducts, try_catch, bind, redis_get, fs_readFile, lift, ret,
    throw, json_parse, writeProducts, try_catch, redis_set.
  destruct (redis_ready w) eqn:Hr; simpl; [|discriminate].
  destruct (next_fault w); simpl; [discriminate|].
  destruct (truthy (kv_products w)); simpl.
  - intros H; inversion H; subst. exact Hr.
  - destruct (seed_file w) as [text|]; simpl.
    + destruct (JSON_parse text) as [seed|]; simpl.
      * rewrite Hr. simpl.
        match goal with |- context [next_fault ?x] => destruct (next_fault x) end;
          simpl; intros H; inversion H; subst; exact Hr.
      * intros H; inversion H; subst. exact Hr.
    + intros H; inversion H; subst. exact Hr.
Qed.

End Accessor.

(** ** Deleting by id list *)

Section Queries.

Variable JSON_parse : string -> option value.
Variable toLowerCase : string -> string.

Lemma id_listed_total (ids : list value) (ps : list value) :
  Forall (fun p => nullish p = false) ps ->
  Forall (fun p => id_listed ids p = Ok (includes ids (prop "id" p))) ps.
Proof.
  apply Forall_impl. intros p Hp. unfold id_listed.
  rewrite (get_prop_ok "id" p Hp). reflexivity.
Qed.

(** C1. Whatever catalog [readProducts] yields and whatever ids are given,
    [deleteProductsByIds] keeps exactly the products whose id is not in the
    list, in their order, writes that sequence to the store, and returns the
    ids of the removed products with counts that add up to the length of the
    catalog. *)
Theorem deleteProductsByIds_partition
        (ids ps : list value) (w w1 : World) :
  readProducts JSON_parse w = (Ok (VArr ps), w1) ->
  Forall (fun p => nullish p = false) ps ->
  next_fault w1 = false ->
  let listed := fun p => includes ids (prop "id" p) in
  let remaining := filter (fun p => negb (listed p)) ps in
  let removed := filter listed ps in
  exists r w2,
    deleteProductsByIds JSON_parse ids w = (Ok r, w2)
    /\ kv_products w2 = VArr remaining
    /\ io_log w2 = (io_log w1 ++ [RedisSet (VArr remaining)])%list
    /\ (forall p, In p remaining <-> In p ps /\ includes ids (prop "id" p) = false)
    /\ (forall p, In p removed <-> In p ps /\ includes ids (prop "id" p) = true)
    /\ deletedIds r = map (prop "id") removed
    /\ deletedCount r = length removed
    /\ remainingCount r = length remaining
    /\ (deletedCount r + remainingCount r)%nat = length ps.
Proof.
  intros Hread Hps Hfault listed remaining removed.
  pose proof (readProducts_ready JSON_parse _ _ _ Hread) as Hready.
  pose proof (id_listed_total ids ps Hps) as Hlisted.
  assert (Hkeep : filter_r (fun product =>
              rbind (id_listed ids product) (fun b => Ok (negb b))) ps
            = Ok remaining).
  { apply filter_r_total. revert Hlisted. apply Forall_impl.
    intros p Hp. rewrite Hp. reflexivity. }
  assert (Hgone : filter_r (id_listed ids) ps = Ok removed)
    by (apply filter_r_total; exact Hlisted).
  assert (Hids : map_r (fun product => get_prop product "id") removed
                 = Ok (map (prop "id") removed)).
  { apply map_r_total. apply Forall_filter. revert Hps. apply Forall_impl.
    intros p Hp. apply get_prop_ok. exact Hp. }
  eexists. eexists.
  split.
  { unfold deleteProductsByIds, try_catch, bind, lift, ret.
    rewrite Hread. cbn [as_array]. rewrite Hkeep.
    rewrite (writeProducts_ok _ _ Hready Hfault).
    rewrite Hgone, Hids. reflexivity. }
  cbn [deletedIds deletedCount remainingCount].
  split; [reflexivity|]. split; [reflexivity|].
  split.
  { intros p. unfold remaining. rewrite filter_In, negb_true_iff.
    reflexivity. }
  split.
  { intros p. unfold removed. rewrite filter_In. reflexivity. }
  split; [reflexivity|]. split; [apply length_map|].
  split; [reflexivity|].
  rewrite length_map. apply filter_split_length.
Qed.

End Queries.

(** ** The request dispatcher: creating a product *)

Section Dispatcher.

Variable JSON_parse : string -> option value.
Variable toLowerCase : string -> string.

Lemma bind_ok_inv {A B} (m : M A) (k : A -> M B) (w w' : World) (b : B) :
  bind m k w = (Ok b, w') ->
  exists a w1, m w = (Ok a, w1) /\ k a w1 = (Ok b, w').
Proof.
  unfold bind. destruct (m w) as [[a|e] w1]; intros H.
  - exists a, w1. split; [reflexivity | exact H].
  - discriminate.
Qed.

Lemma try_catch_ok_inv {A} (m : M A) (h : exn -> M A) (w w' : World) (a : A) :
  try_catch m h w = (Ok a, w') ->
  m w = (Ok a, w')
  \/ exists e w1, m w = (Throw e, w1) /\ h e w1 = (Ok a, w').
Proof.
  unfold try_catch. destruct (m w) as [[x|e] w1]; intros H.
  - left. exact H.
  - right. exists e, w1. split; [reflexivity | exact H].
Qed.

Lemma ret_inv {A} (a b : A) (w w' : World) :
  ret a w = (Ok b, w') -> a = b /\ w = w'.
Proof. unfold ret. intros H; inversion H; split; reflexivity. Qed.

Lemma lift_inv {A} (r : result A) (b : A) (w w' : World) :
  lift r w = (Ok b, w') -> r = Ok b /\ w = w'.
Proof. unfold lift. intros H; inversion H; split; reflexivity. Qed.

(** Invert a successful run of a monadic block, step by step. *)
Ltac invert_run :=
  repeat match goal with
  | H : bind _ _ _ = (Ok _, _) |- _ =>
      apply bind_ok_inv in H; destruct H as (? & ? & ? & H)
  | H : try_catch _ _ _ = (Ok _, _) |- _ =>
      apply try_catch_ok_inv in H; destruct H as [H | (? & ? & ? & H)]
  | H : ret _ _ = (Ok _, _) |- _ =>
      apply ret_inv in H; destruct H as [? ?]; subst
  | H : lift _ _ = (Ok _, _) |- _ =>
      apply lift_inv in H; destruct H as [H ?]; subst
  | H : Date_now _ = (Ok _, _) |- _ =>
      unfold Date_now in H; inversion H; subst; clear H
  | H : (if ?c then _ else _) _ = (Ok _, _) |- _ =>
      let E := fresh "Hif" in destruct c eqn:E
  end.

Lemma get_prop_inv (k : string) (v x : value) :
  get_prop v k = Ok x -> nullish v = false /\ x = prop k v.
Proof.
  destruct v; simpl; intros H; inversion H; split; reflexivity.
Qed.

Lemma js_or_truthy (a b : value) : truthy b = true -> truthy (js_or a b) = true.
Proof. unfold js_or. destruct (truthy a) eqn:E; intros H; assumption. Qed.

Lemma js_or_falsy (a b : value) : truthy a = false -> js_or a b = b.
Proof. unfold js_or. intros ->. reflexivity. Qed.

(** The fields of a created product. *)
Lemma newProduct_fields (now : Z) (title imageUrl description productUrl : value) :
  let product := newProduct now title imageUrl description productUrl in
  prop "id" product = VStr (string_of_Z now)
  /\ prop "title" product = title
  /\ prop "imageUrl" product = js_or imageUrl (VStr placeholder_image)
  /\ prop "description" product = js_or description (VStr "")
  /\ prop "productUrl" product = productUrl.
Proof. repeat split. Qed.

(** C2. An authorised POST whose body carries a truthy [title] and
    [productUrl] is answered 201 with the new product: its id is the clock
    reading in decimal, [imageUrl] and [description] take their defaults when
    the body omits them, and the store then holds the catalog that
    [readProducts] yielded with this one product appended. *)
Theorem post_creates_product (req : Request) (w w1 : World) (ps : list value) :
  method req = "POST" ->
  validateApiKey req w = Ok true ->
  nullish (body req) = false ->
  truthy (prop "title" (body req)) = true ->
  truthy (prop "productUrl" (body req)) = true ->
  readProducts JSON_parse w = (Ok (VArr ps), w1) ->
  next_fault w1 = false ->
  let product :=
    newProduct (date_now w) (prop "title" (body req))
      (prop "imageUrl" (body req)) (prop "description" (body req))
      (prop "productUrl" (body req)) in
  exists w2,
    handler JSON_parse toLowerCase req w = (Ok (respond 201 (Json product)), w2)
    /\ kv_products w2 = VArr (ps ++ [product])
    /\ length (ps ++ [product]) = S (length ps)
    /\ io_log w2 = (io_log w1 ++ [RedisSet (VArr (ps ++ [product]))])%list
    /\ prop "id" product = VStr (string_of_Z (date_now w))
    /\ prop "title" product = prop "title" (body req)
    /\ prop "productUrl" product = prop "productUrl" (body req)
    /\ (prop "imageUrl" (body req) = VUndefined ->
        prop "imageUrl" product = VStr placeholder_image)
    /\ (prop "description" (body req) = VUndefined ->
        prop "description" product = VStr "").
Proof.
  intros Hm Hvalid Hbody Htitle Hurl Hread Hfault product.
  pose proof (readProducts_ready JSON_parse _ _ _ Hread) as Hready.
  eexists. split.
  { unfold handler. rewrite Hm. cbn [String.eqb Ascii.eqb Bool.eqb].
    unfold bind at 1. rewrite Hvalid. cbn [negb].
    unfold try_catch at 1, handle_post, try_catch, bind, lift, Date_now, ret.
    rewrite !(get_prop_ok _ _ Hbody), Htitle, Hurl. cbn [negb orb].
    rewrite Hread. cbn [as_array].
    rewrite (writeProducts_ok _ _ Hready Hfault). reflexivity. }
  split; [reflexivity|].
  split; [rewrite length_app; simpl; lia|].
  split; [reflexivity|].
  split; [reflexivity|]. split; [reflexivity|]. split; [reflexivity|].
  split; intros H; cbn [product prop newProduct lookup String.eqb Ascii.eqb Bool.eqb];
    rewrite H; reflexivity.
Qed.

(** C10. Whenever a POST is answered 201, the product in the response has
    the placeholder as [imageUrl] if the body's [imageUrl] is falsy (absent,
    [null], empty string, ...), the empty string as [description] if the
    body's [description] is falsy, and its [imageUrl] is never the empty
    string. *)
Theorem post_defaults_on_falsy (req : Request) (w w' : World) (r : Response) :
  method req = "POST" ->
  handler JSON_parse toLowerCase req w = (Ok r, w') ->
  status r = 201 ->
  exists product,
    res_body r = Json product
    /\ (truthy (prop "imageUrl" (body req)) = false ->
        prop "imageUrl" product = VStr placeholder_image)
    /\ (truthy (prop "description" (body req)) = false ->
        prop "description" product = VStr "")
    /\ (truthy (prop "imageUrl" (body req)) = true ->
        prop "imageUrl" product = prop "imageUrl" (body req))
    /\ truthy (prop "imageUrl" product) = true
    /\ prop "imageUrl" product <> VStr "".
Proof.
  intros Hm Hrun Hstatus.
  unfold handler in Hrun. rewrite Hm in Hrun.
  cbn [String.eqb Ascii.eqb Bool.eqb] in Hrun.
  invert_run; try discriminate Hstatus.
  unfold handle_post in Hrun. invert_run; try discriminate Hstatus.
  repeat match goal with
  | H : get_prop _ _ = Ok _ |- _ =>
      apply get_prop_inv in H; destruct H as [? ?]; subst
  end.
  eexists. split; [reflexivity|].
  cbn [prop newProduct lookup String.eqb Ascii.eqb Bool.eqb].
  assert (Hnonempty :
            truthy (js_or (prop "imageUrl" (body req)) (VStr placeholder_image))
            = true) by (apply js_or_truthy; reflexivity).
  split; [intros Hf; apply js_or_falsy; exact Hf|].
  split; [intros Hf; apply js_or_falsy; exact Hf|].
  split; [intros Ht; unfold js_or; rewrite Ht; reflexivity|].
  split; [exact Hnonempty|].
  intros Heq. rewrite Heq in Hnonempty. discriminate.
Qed.

(** ** The access gate *)

Lemma supplied_api_key_total (req : Request) :
  supplied_api_key req = Ok (api_key_of req).
Proof.
  unfold supplied_api_key, api_key_of, js_and.
  destruct (truthy (env_value (header "x-api-key" (headers req))));
    [reflexivity|].
  destruct (truthy (lookup "api_key" (query req))); [reflexivity|].
  destruct (truthy (body req)) eqn:Hb; [|reflexivity].
  apply get_prop_ok, truthy_not_nullish, Hb.
Qed.


Lemma development_false (w : World) :
  NODE_ENV w <> Some "development" -> development w = false.
Proof.
  unfold development. destruct (NODE_ENV w) as [s|]; simpl; [|reflexivity].
  intros H. apply String.eqb_neq. intros ->. apply H. reflexivity.
Qed.

(** A Referer that does not contain the Host does not get the same-origin
    pass; neither does an absent or empty Referer. *)
Lemma same_origin_false (req : Request) :
  str_includes (header_or_empty "referer" req) (header_or_empty "host" req)
  = false ->
  same_origin req = false.
Proof. unfold same_origin. intros ->. apply andb_false_r. Qed.

(** Outside development mode and without the same-origin pass, the gate is
    the comparison of the supplied key with [process.env.API_KEY]. *)
Lemma validateApiKey_external (req : Request) (w : World) :
  development w = false -> same_origin req = false ->
  validateApiKey req w
  = Ok (strict_equals (api_key_of req) (env_value (API_KEY w))).
Proof.
  intros Hd Hs. unfold validateApiKey.
  rewrite supplied_api_key_total. simpl. rewrite Hd, Hs. reflexivity.
Qed.


(** A request that passed the gate is never answered 401. *)
Lemma authorized_not_401 (req : Request) (w w' : World) (r : Response) :
  validateApiKey req w = Ok true ->
  handler JSON_parse toLowerCase req w = (Ok r, w') ->
  status r <> 401.
Proof.
  intros Hv Hrun. unfold handler in Hrun.
  destruct (method req =? "OPTIONS")%string.
  { invert_run. simpl. discriminate. }
  apply bind_ok_inv in Hrun. destruct Hrun as (ok & w1 & Hgate & Hrun).
  assert (ok = true /\ w1 = w) as [-> ->].
  { destruct (method req =? "GET")%string.
    - apply ret_inv in Hgate. destruct Hgate; split; congruence.
    - rewrite Hv in Hgate. inversion Hgate. split; reflexivity. }
  cbn [negb] in Hrun.
  unfold handle_get, handle_post, handle_delete in Hrun.
  invert_run; discriminate.
Qed.

(** C8, as the code has it.  With no secret configured, outside
    development mode and without the same-origin pass, a request that brings
    no key in a header or in the query passes the gate when its body is
    absent or is a truthy value without an [api_key] field
    ([undefined === undefined]), and the handler does not answer it 401;
    when its body is falsy but not [undefined] (the empty string, [null],
    [0], [false]) the body itself is what is compared with the unset secret,
    the gate refuses, and a POST or DELETE is answered 401. *)
Theorem unset_secret_admits_keyless (req : Request) (w : World) :
  NODE_ENV w <> Some "development" ->
  same_origin req = false ->
  API_KEY w = None ->
  header "x-api-key" (headers req) = None ->
  lookup "api_key" (query req) = VUndefined ->
  (body req = VUndefined
   \/ (truthy (body req) = true /\ prop "api_key" (body req) = VUndefined) ->
   api_key_of req = VUndefined
   /\ validateApiKey req w = Ok true
   /\ (forall r w', handler JSON_parse toLowerCase req w = (Ok r, w') ->
                    status r <> 401))
  /\ (truthy (body req) = false -> body req <> VUndefined ->
      api_key_of req = body req
      /\ validateApiKey req w = Ok false
      /\ (method req <> "OPTIONS" -> method req <> "GET" ->
          handler JSON_parse toLowerCase req w
          = (Ok (respond 401 (Json (VObj
                   [ ("error", VStr "Invalid or missing API key") ]))), w))).
Proof.
  intros Hd Hs Hkey Hh Hq.
  pose proof (validateApiKey_external req w (development_false w Hd) Hs)
    as Hext.
  split.
  - intros Hb.
    assert (Hnone : api_key_of req = VUndefined).
    { unfold api_key_of, js_and. rewrite Hh, Hq. simpl.
      destruct Hb as [-> | [-> ->]]; reflexivity. }
    assert (Hgate : validateApiKey req w = Ok true).
    { rewrite Hext, Hnone, Hkey. reflexivity. }
    split; [exact Hnone|]. split; [exact Hgate|].
    intros r w'. apply authorized_not_401. exact Hgate.
  - intros Hfalsy Hdef.
    assert (Hself : api_key_of req = body req).
    { unfold api_key_of, js_and. rewrite Hh, Hq. simpl. rewrite Hfalsy.
      reflexivity. }
    assert (Hgate : validateApiKey req w = Ok false).
    { rewrite Hext, Hself, Hkey.
      destruct (body req); try reflexivity. now elim Hdef. }
    split; [exact Hself|]. split; [exact Hgate|].
    intros Hopt Hget. unfold handler.
    apply String.eqb_neq in Hopt. apply String.eqb_neq in Hget.
    rewrite Hopt, Hget. unfold bind. rewrite Hgate. reflexivity.
Qed.

(** A body that is falsy but not [undefined] (the empty string of a request
    sent without a body, or JSON [null]) is itself taken for the key, and
    does not equal an unset secret. *)
Remark unset_secret_rejects_falsy_body (req : Request) (w : World) :
  NODE_ENV w <> Some "development" ->
  same_origin req = false ->
  API_KEY w = None ->
  header "x-api-key" (headers req) = None ->
  lookup "api_key" (query req) = VUndefined ->
  body req = VStr "" \/ body req = VNull ->
  validateApiKey req w = Ok false.
Proof.
  intros Hd Hs Hkey Hh Hq Hb.
  rewrite (validateApiKey_external req w (development_false w Hd) Hs).
  unfold api_key_of, js_and. rewrite Hh, Hq, Hkey. simpl.
  destruct Hb as [-> | ->]; reflexivity.
Qed.

(** ** The request dispatcher: validation *)

(** Validation of a body that can be destructured (any value but [null]
    and [undefined]): an authorised POST without a truthy [title] or
    [productUrl], and an authorised DELETE without [ids], with [ids] that is
    not an array, or with an empty [ids] array, is answered 400, and the
    world after the request is the world before it. *)
Theorem invalid_mutation_rejected (req : Request) (w : World) :
  validateApiKey req w = Ok true ->
  nullish (body req) = false ->
  (method req = "POST" /\ post_lacks_fields (body req))
  \/ (method req = "DELETE" /\ delete_lacks_ids (body req)) ->
  exists r w',
    handler JSON_parse toLowerCase req w = (Ok r, w')
    /\ status r = 400
    /\ w' = w
    /\ io_log w' = io_log w
    /\ kv_products w' = kv_products w.
Proof.
  intros Hvalid Hbody [[Hm Hlack] | [Hm Hlack]].
  - assert (Hbad : (negb (truthy (prop "title" (body req)))
                    || negb (truthy (prop "productUrl" (body req))))%bool
                   = true).
    { destruct Hlack as [-> | ->]; [reflexivity | apply orb_true_r]. }
    eexists. exists w. split.
    { unfold handler. rewrite Hm. cbn [String.eqb Ascii.eqb Bool.eqb].
      unfold bind at 1. rewrite Hvalid. cbn [negb].
      unfold try_catch at 1, handle_post, try_catch, bind, lift, ret.
      rewrite !(get_prop_ok _ _ Hbody), Hbad. reflexivity. }
    repeat split; reflexivity.
  - assert (Hbad : (negb (truthy (prop "ids" (body req)))
                    || negb (is_array (prop "ids" (body req)))
                    || Nat.eqb (length (array_items (prop "ids" (body req)))) 0)%bool
                   = true).
    { destruct Hlack as [-> | [-> | ->]];
        [reflexivity | | reflexivity].
      rewrite orb_true_r. reflexivity. }
    eexists. exists w. split.
    { unfold handler. rewrite Hm. cbn [String.eqb Ascii.eqb Bool.eqb].
      unfold bind at 1. rewrite Hvalid. cbn [negb].
      unfold try_catch at 1, handle_delete, try_catch, bind, lift, ret.
      rewrite (get_prop_ok _ _ Hbody), Hbad. reflexivity. }
    repeat split; reflexivity.
Qed.

(** A [null] body cannot be destructured: the POST is answered 500, again
    without any call to the store. *)
Remark post_null_body (req : Request) (w : World) :
  method req = "POST" ->
  validateApiKey req w = Ok true ->
  body req = VNull ->
  exists r, handler JSON_parse toLowerCase req w = (Ok r, w) /\ status r = 500.
Proof.
  intros Hm Hvalid Hb. eexists. split.
  - unfold handler. rewrite Hm. cbn [String.eqb Ascii.eqb Bool.eqb].
    unfold bind at 1. rewrite Hvalid. cbn [negb].
    unfold try_catch at 1, handle_post, try_catch, bind, lift, ret.
    rewrite Hb. reflexivity.
  - reflexivity.
Qed.

End Dispatcher.

(** ** Seeding *)

Section Seeding.

Variable JSON_parse : string -> option value.
Variable toLowerCase : string -> string.

Lemma next_fault_after_call (ev : io_event) (v : value) (w : World) :
  next_fault (redis_call ev v w) = nth 1 (redis_faults w) false.
Proof.
  unfold next_fault, redis_call. simpl.
  destruct (redis_faults w) as [|a [|b l]]; reflexivity.
Qed.

(** What [readProducts] does once [get] has answered a falsy value, by the
    three ways the seeding can go. *)
Lemma readProducts_falsy (w : World) :
  redis_ready w = true -> next_fault w = false ->
  truthy (kv_products w) = false ->
  let w1 := log_event FsReadFile (redis_call RedisGet (kv_products w) w) in
  readProducts JSON_parse w =
  match seed_file w with
  | None => (Ok (VArr []), w1)
  | Some text =>
      match JSON_parse text with
      | None => (Ok (VArr []), w1)
      | Some seed =>
          if nth 1 (redis_faults w) false
          then (Ok (VArr []), redis_call (RedisSet seed) (kv_products w) w1)
          else (Ok seed, redis_call (RedisSet seed) seed w1)
      end
  end.
Proof.
  intros Hr Hf Ht w1.
  unfold readProducts, try_catch, bind, redis_get, fs_readFile, lift, ret,
    json_parse.
  rewrite Hr, Hf. cbn [negb]. rewrite Ht. cbn [negb].
  change (seed_file (redis_call RedisGet (kv_products w) w))
    with (seed_file w).
  fold w1.
  destruct (seed_file w) as [text|]; [|reflexivity].
  destruct (JSON_parse text) as [seed|]; [|reflexivity].
  assert (Hr1 : redis_ready w1 = true) by exact Hr.
  assert (Hf1 : next_fault w1 = nth 1 (redis_faults w) false)
    by (apply (next_fault_after_call RedisGet (kv_products w) w)).
  destruct (nth 1 (redis_faults w) false).
  - rewrite (writeProducts_fault _ _ Hr1 Hf1). reflexivity.
  - rewrite (writeProducts_ok _ _ Hr1 Hf1). reflexivity.
Qed.

(** Seeding on a falsy stored value (the key is absent, or holds [null],
    the empty string, [0] or [false]): [readProducts] loads and parses the
    seed file, writes the seed to the store and returns it; when the file
    cannot be read, does not parse, or the write fails, it returns the empty
    array, and the plain GET is then answered 200 with [[]]. *)
Theorem readProducts_seeds_when_falsy (w : World) :
  redis_ready w = true -> next_fault w = false ->
  truthy (kv_products w) = false ->
  (forall text seed,
      seed_file w = Some text -> JSON_parse text = Some seed ->
      nth 1 (redis_faults w) false = false ->
      exists w',
        readProducts JSON_parse w = (Ok seed, w')
        /\ kv_products w' = seed
        /\ io_log w' = (io_log w ++ [RedisGet; FsReadFile; RedisSet seed])%list)
  /\ (seed_file w = None
      \/ (exists text, seed_file w = Some text /\ JSON_parse text = None)
      \/ nth 1 (redis_faults w) false = true ->
      exists w',
        readProducts JSON_parse w = (Ok (VArr []), w')
        /\ kv_products w' = kv_products w
        /\ forall req,
            method req = "GET" ->
            truthy (lookup "id" (query req)) = false ->
            truthy (lookup "title" (query req)) = false ->
            handler JSON_parse toLowerCase req w
            = (Ok (respond 200 (Json (VArr []))), w')).
Proof.
  intros Hr Hf Ht.
  pose proof (readProducts_falsy w Hr Hf Ht) as Hread. cbv zeta in Hread.
  split.
  - intros text seed Hfile Hparse Hwrite.
    rewrite Hfile, Hparse, Hwrite in Hread.
    eexists. split; [exact Hread|]. split; [reflexivity|].
    simpl. rewrite <- !app_assoc. reflexivity.
  - intros Hfail.
    assert (Hempty : exists w',
               readProducts JSON_parse w = (Ok (VArr []), w')
               /\ kv_products w' = kv_products w).
    { destruct (seed_file w) as [text|].
      - destruct (JSON_parse text) as [seed|] eqn:Hparse.
        + destruct Hfail as [Hnone | [[t [Hsome Hbad]] | Hwrite]].
          * discriminate.
          * inversion Hsome; subst. congruence.
          * rewrite Hwrite in Hread. eexists. split; [exact Hread | reflexivity].
        + eexists. split; [exact Hread | reflexivity].
      - eexists. split; [exact Hread | reflexivity]. }
    destruct Hempty as (w' & Hrun & Hkv).
    exists w'. split; [exact Hrun|]. split; [exact Hkv|].
    intros req Hm Hid Htitle.
    unfold handler. rewrite Hm. cbn [String.eqb Ascii.eqb Bool.eqb].
    unfold bind at 1, ret at 1. cbn [negb].
    unfold try_catch, handle_get. rewrite Hid, Htitle.
    unfold bind. rewrite Hrun. reflexivity.
Qed.

(** C9. A truthy stored value never starts the seeding: [readProducts]
    makes the one [get] and nothing else, and the store keeps its value.
    In particular a stored empty array is returned as it is. *)
Theorem stored_empty_array_not_reseeded (w : World) :
  redis_ready w = true ->
  (truthy (kv_products w) = true ->
   io_log (snd (readProducts JSON_parse w)) = (io_log w ++ [RedisGet])%list
   /\ kv_products (snd (readProducts JSON_parse w)) = kv_products w)
  /\ (kv_products w = VArr [] -> next_fault w = false ->
      fst (readProducts JSON_parse w) = Ok (VArr [])
      /\ io_log (snd (readProducts JSON_parse w)) = (io_log w ++ [RedisGet])%list
      /\ kv_products (snd (readProducts JSON_parse w)) = VArr []).
Proof.
  intros Hr. split.
  - intros Ht.
    unfold readProducts, try_catch, bind, redis_get, ret, throw.
    rewrite Hr. cbn [negb].
    destruct (next_fault w); cbn [negb]; [split; reflexivity|].
    rewrite Ht. split; reflexivity.
  - intros Hkv Hf.
    assert (Ht : truthy (kv_products w) = true) by (rewrite Hkv; reflexivity).
    rewrite (readProducts_stored JSON_parse w Hr Hf Ht), Hkv.
    repeat split.
Qed.

End Seeding.

(** ** Lookup by id and search by title *)

Section Lookup.

Variable JSON_parse : string -> option value.
Variable toLowerCase : string -> string.

Lemma strict_equals_eq (a b : value) : strict_equals a b = true -> a = b.
Proof.
  destruct a, b; simpl; intros H; try discriminate; try reflexivity.
  - apply Bool.eqb_prop in H. now subst.
  - apply Z.eqb_eq in H. now subst.
  - apply String.eqb_eq in H. now subst.
Qed.

Lemma find_r_none (f : value -> result bool) (l : list value) :
  Forall (fun q => f q = Ok false) l -> find_r f l = Ok VUndefined.
Proof.
  induction 1 as [|x l Hx _ IH]; simpl; [reflexivity|].
  rewrite Hx. exact IH.
Qed.

Lemma find_r_first (f : value -> result bool) (pre post : list value)
      (p : value) :
  Forall (fun q => f q = Ok false) pre -> f p = Ok true ->
  find_r f (pre ++ p :: post) = Ok p.
Proof.
  intros Hpre Hp. induction Hpre as [|x l Hx _ IH]; simpl.
  - rewrite Hp. reflexivity.
  - rewrite Hx. exact IH.
Qed.

Lemma id_test_miss (id : value) (l : list value) :
  Forall (fun p => nullish p = false) l ->
  (forall p, In p l -> strict_equals (prop "id" p) id = false) ->
  Forall (fun q => rbind (get_prop q "id")
                     (fun pid => Ok (strict_equals pid id)) = Ok false) l.
Proof.
  intros Hl Hmiss. apply Forall_forall. intros q Hq.
  rewrite Forall_forall in Hl.
  rewrite (get_prop_ok "id" q (Hl q Hq)). simpl. rewrite (Hmiss q Hq).
  reflexivity.
Qed.

(** A product whose id equals a truthy value is an object. *)
Lemma id_hit_object (id p : value) :
  truthy id = true -> strict_equals (prop "id" p) id = true ->
  truthy p = true /\ prop "id" p = id.
Proof.
  intros Hid Hhit. apply strict_equals_eq in Hhit. split; [|exact Hhit].
  destruct p; simpl in Hhit; subst; try discriminate; reflexivity.
Qed.

(** C6. A GET with a truthy [id] parameter is answered 404 when no product
    of the catalog has that id, [getProductById] then returning [null]
    without throwing; otherwise it is answered 200 with the first product
    whose id is strictly equal to the parameter. *)
Theorem get_by_id (req : Request) (w w1 : World) (ps : list value) :
  method req = "GET" ->
  truthy (lookup "id" (query req)) = true ->
  readProducts JSON_parse w = (Ok (VArr ps), w1) ->
  let id := lookup "id" (query req) in
  (Forall (fun p => nullish p = false) ps ->
   (forall p, In p ps -> strict_equals (prop "id" p) id = false) ->
   getProductById JSON_parse id w = (Ok VNull, w1)
   /\ exists r, handler JSON_parse toLowerCase req w = (Ok r, w1) /\ status r = 404)
  /\ (forall pre p post,
        ps = (pre ++ p :: post)%list ->
        Forall (fun q => nullish q = false) pre ->
        (forall q, In q pre -> strict_equals (prop "id" q) id = false) ->
        strict_equals (prop "id" p) id = true ->
        getProductById JSON_parse id w = (Ok p, w1)
        /\ handler JSON_parse toLowerCase req w = (Ok (respond 200 (Json p)), w1)
        /\ prop "id" p = id).
Proof.
  intros Hm Hid Hread id. split.
  - intros Hps Hmiss.
    assert (Hget : getProductById JSON_parse id w = (Ok VNull, w1)).
    { unfold getProductById, bind, lift, ret. rewrite Hread. cbn [as_array].
      rewrite (find_r_none _ _ (id_test_miss id ps Hps Hmiss)). reflexivity. }
    split; [exact Hget|]. eexists. split.
    + unfold handler. rewrite Hm. cbn [String.eqb Ascii.eqb Bool.eqb].
      unfold bind at 1, ret at 1. cbn [negb].
      unfold try_catch, handle_get. rewrite Hid.
      unfold bind. fold id. rewrite Hget. reflexivity.
    + reflexivity.
  - intros pre p post -> Hpre Hmiss Hhit.
    destruct (id_hit_object id p Hid Hhit) as [Hp Heq].
    assert (Hget : getProductById JSON_parse id w = (Ok p, w1)).
    { unfold getProductById, bind, lift, ret. rewrite Hread. cbn [as_array].
      rewrite (find_r_first _ pre post p (id_test_miss id pre Hpre Hmiss)).
      - unfold js_or. rewrite Hp. reflexivity.
      - rewrite (get_prop_ok "id" p (truthy_not_nullish p Hp)). simpl.
        rewrite Hhit. reflexivity. }
    split; [exact Hget|]. split; [|exact Heq].
    unfold handler. rewrite Hm. cbn [String.eqb Ascii.eqb Bool.eqb].
    unfold bind at 1, ret at 1. cbn [negb].
    unfold try_catch, handle_get. rewrite Hid.
    unfold bind. fold id. rewrite Hget. unfold ret. rewrite Hp. reflexivity.
Qed.

Lemma toLowerCase_ascii_empty (s : string) :
  toLowerCase_ascii s = "" <-> s = "".
Proof.
  destruct s; simpl; split; intros H; try reflexivity; discriminate.
Qed.

Lemma app_empty_inv (a b : string) : (a ++ b)%string = "" -> a = "" /\ b = "".
Proof. destruct a; simpl; [intros ->; split; reflexivity | discriminate]. Qed.





End Lookup.

(** * The theorems at the sample data *)

Lemma deleteProductsByIds_partition_witness :
  exists r w2,
    deleteProductsByIds sample_parse [VStr "101"; VStr "999"] w_stored
    = (Ok r, w2)
    /\ kv_products w2 = VArr [red_hat]
    /\ deletedIds r = [VStr "101"]
    /\ (deletedCount r + remainingCount r)%nat = 2%nat.
Proof.
  destruct (deleteProductsByIds_partition sample_parse
              [VStr "101"; VStr "999"] [blue_shirt; red_hat] w_stored
              (snd (readProducts sample_parse w_stored)))
    as (r & w2 & Hrun & Hkv & _ & _ & _ & Hids & _ & _ & Hsum).
  - reflexivity.
  - repeat constructor.
  - reflexivity.
  - exists r, w2. repeat split; assumption.
Defined.

Lemma post_creates_product_witness :
  exists w2,
    handler sample_parse toLowerCase_ascii post_mug w_stored
    = (Ok (respond 201 (Json
         (VObj [ ("id", VStr "1700000000000"); ("title", VStr "Mug");
                 ("imageUrl", VStr placeholder_image);
                 ("description", VStr "");
                 ("productUrl", VStr "https://shop.example/mug") ]))), w2)
    /\ length (array_items (kv_products w2)) = 3%nat.
Proof.
  destruct (post_creates_product sample_parse toLowerCase_ascii post_mug w_stored
              (snd (readProducts sample_parse w_stored))
              [blue_shirt; red_hat])
    as (w2 & Hrun & Hkv & _); try reflexivity.
  exists w2. split; [exact Hrun|]. rewrite Hkv. reflexivity.
Defined.

Lemma readProducts_seeds_when_falsy_witness :
  (exists w',
      readProducts sample_parse w_absent = (Ok (VArr [seed_product]), w')
      /\ kv_products w' = VArr [seed_product])
  /\ (exists w',
        readProducts sample_parse w_nofile = (Ok (VArr []), w')
        /\ kv_products w' = VNull).
Proof.
  split.
  - destruct (readProducts_seeds_when_falsy sample_parse toLowerCase_ascii w_absent
                eq_refl eq_refl eq_refl) as [Hseed _].
    destruct (Hseed seed_text (VArr [seed_product]) eq_refl eq_refl eq_refl)
      as (w' & Hrun & Hkv & _).
    exists w'. split; assumption.
  - destruct (readProducts_seeds_when_falsy sample_parse toLowerCase_ascii w_nofile
                eq_refl eq_refl eq_refl) as [_ Hfail].
    destruct (Hfail (or_introl eq_refl)) as (w' & Hrun & Hkv & _).
    exists w'. split; assumption.
Defined.

(** C3 at a stored empty array.  The comment on the test of [readProducts]
    says that a null or empty value is seeded from the file, but the test is
    [!products] and an empty array is truthy: with the key holding [[]] and
    the seed file in place, the file is neither read nor written to the
    store nor returned, and the read answers [[]]. *)
Lemma stored_empty_array_skips_seeding :
  kv_products w_emptied = VArr []
  /\ seed_file w_emptied = Some seed_text
  /\ sample_parse seed_text = Some (VArr [seed_product])
  /\ fst (readProducts sample_parse w_emptied) = Ok (VArr [])
  /\ fst (readProducts sample_parse w_emptied) <> Ok (VArr [seed_product])
  /\ io_log (snd (readProducts sample_parse w_emptied)) = [RedisGet]
  /\ kv_products (snd (readProducts sample_parse w_emptied)) = VArr [].
Proof.
  repeat split; try reflexivity. vm_compute. discriminate.
Qed.


Lemma invalid_mutation_rejected_witness :
  exists r w',
    handler sample_parse toLowerCase_ascii post_untitled w_stored = (Ok r, w')
    /\ status r = 400
    /\ w' = w_stored.
Proof.
  destruct (invalid_mutation_rejected sample_parse toLowerCase_ascii
              post_untitled w_stored)
    as (r & w' & Hrun & Hstatus & Hw & _).
  - reflexivity.
  - reflexivity.
  - left. split; [reflexivity | left; reflexivity].
  - exists r, w'. repeat split; assumption.
Defined.

Lemma get_by_id_witness :
  handler sample_parse toLowerCase_ascii get_102 w_stored
  = (Ok (respond 200 (Json red_hat)), snd (readProducts sample_parse w_stored)).
Proof.
  destruct (get_by_id sample_parse toLowerCase_ascii get_102 w_stored
              (snd (readProducts sample_parse w_stored))
              [blue_shirt; red_hat] eq_refl eq_refl eq_refl) as [_ Hhit].
  destruct (Hhit [blue_shirt] red_hat [] eq_refl) as (_ & Hrun & _).
  - repeat constructor.
  - intros q [<- | []]. reflexivity.
  - reflexivity.
  - exact Hrun.
Defined.


Lemma unset_secret_admits_keyless_witness :
  validateApiKey post_keyless w_open = Ok true
  /\ validateApiKey post_keyless_no_body w_open = Ok false.
Proof.
  split.
  - assert (Hdev : NODE_ENV w_open <> Some "development") by discriminate.
    destruct (unset_secret_admits_keyless sample_parse toLowerCase_ascii
                post_keyless w_open Hdev eq_refl eq_refl eq_refl eq_refl)
      as [Hopen _].
    destruct Hopen as (_ & Hgate & _); [|exact Hgate].
    right. split; reflexivity.
  - assert (Hdev : NODE_ENV w_open <> Some "development") by discriminate.
    destruct (unset_secret_admits_keyless sample_parse toLowerCase_ascii
                post_keyless_no_body w_open Hdev eq_refl eq_refl eq_refl
                eq_refl) as [_ Hshut].
    destruct Hshut as (_ & Hgate & _);
      [reflexivity | discriminate | exact Hgate].
Defined.

(** A request that supplies no key anywhere, sent without a body, is not
    let through although no secret is configured: its body is the empty
    string, which is not [undefined]. *)
Lemma keyless_empty_body_is_refused :
  NODE_ENV w_open = Some "production"
  /\ same_origin post_keyless_no_body = false
  /\ API_KEY w_open = None
  /\ header "x-api-key" (headers post_keyless_no_body) = None
  /\ lookup "api_key" (query post_keyless_no_body) = VUndefined
  /\ prop "api_key" (body post_keyless_no_body) = VUndefined
  /\ validateApiKey post_keyless_no_body w_open = Ok false
  /\ handler sample_parse toLowerCase_ascii post_keyless_no_body w_open
     = (Ok (respond 401 (Json (VObj
              [ ("error", VStr "Invalid or missing API key") ]))), w_open).
Proof. repeat split. Qed.

(** C5 at a body that is JSON [null].  The body lacks [title] and [ids],
    the request passes the gate, yet the destructuring of [req.body] throws
    before the validation is reached: the POST and the DELETE are answered
    500 with the message of the catch block instead of 400.  The store is
    not touched. *)
Lemma null_body_answered_500 :
  validateApiKey post_null w_stored = Ok true
  /\ status (match fst (handler sample_parse toLowerCase_ascii
                         post_null w_stored) with
             | Ok r => r
             | Throw _ => respond 400 NoBody
             end) = 500
  /\ snd (handler sample_parse toLowerCase_ascii post_null w_stored)
     = w_stored
  /\ validateApiKey delete_null w_stored = Ok true
  /\ status (match fst (handler sample_parse toLowerCase_ascii
                         delete_null w_stored) with
             | Ok r => r
             | Throw _ => respond 400 NoBody
             end) = 500
  /\ snd (handler sample_parse toLowerCase_ascii delete_null w_stored)
     = w_stored.
Proof. repeat split. Qed.


Lemma stored_empty_array_not_reseeded_witness :
  fst (readProducts sample_parse w_emptied) = Ok (VArr [])
  /\ io_log (snd (readProducts sample_parse w_emptied)) = [RedisGet].
Proof.
  destruct (stored_empty_array_not_reseeded sample_parse w_emptied eq_refl)
    as [_ Hempty].
  destruct (Hempty eq_refl eq_refl) as (Hval & Hlog & _).
  split; assumption.
Defined.

Lemma post_defaults_on_falsy_witness :
  exists product,
    res_body (match fst (handler sample_parse toLowerCase_ascii
                           post_blank_image w_stored) with
              | Ok r => r
              | Throw _ => respond 500 NoBody
              end) = Json product
    /\ prop "imageUrl" product = VStr placeholder_image.
Proof.
  destruct (post_defaults_on_falsy sample_parse toLowerCase_ascii
              post_blank_image w_stored
              (snd (handler sample_parse toLowerCase_ascii post_blank_image w_stored))
              (respond 201 (Json (newProduct 1700000000000 (VStr "Mug")
                 (VStr "") VUndefined (VStr "https://shop.example/mug")))))
    as (product & Hbody & Himage & _).
  - reflexivity.
  - reflexivity.
  - reflexivity.
  - exists product. split; [exact Hbody | apply Himage; reflexivity].
Defined.

(** * Further properties of the route *)

(** Invert a successful run of a monadic block, step by step. *)
Ltac run_back :=
  repeat match goal with
  | H : bind _ _ _ = (Ok _, _) |- _ =>
      apply bind_ok_inv in H; destruct H as (? & ? & ? & H)
  | H : try_catch _ _ _ = (Ok _, _) |- _ =>
      apply try_catch_ok_inv in H; destruct H as [H | (? & ? & ? & H)]
  | H : ret _ _ = (Ok _, _) |- _ =>
      apply ret_inv in H; destruct H as [? ?]; subst
  | H : lift _ _ = (Ok _, _) |- _ =>
      apply lift_inv in H; destruct H as [H ?]; subst
  | H : Date_now _ = (Ok _, _) |- _ =>
      unfold Date_now in H; inversion H; subst; clear H
  | H : (if ?c then _ else _) _ = (Ok _, _) |- _ =>
      let E := fresh "Hif" in destruct c eqn:E
  end.

(** ** The failure boundary *)

Section Boundary.

Variable JSON_parse : string -> option value.
Variable toLowerCase : string -> string.

Lemma validateApiKey_value (req : Request) (w : World) :
  validateApiKey req w
  = Ok (development w || same_origin req
        || strict_equals (api_key_of req) (env_value (API_KEY w)))%bool.
Proof.
  unfold validateApiKey. rewrite supplied_api_key_total. simpl.
  destruct (development w); [reflexivity|].
  destruct (same_origin req); reflexivity.
Qed.

Lemma handle_get_shape (req : Request) (w w' : World) (r : Response) :
  handle_get JSON_parse toLowerCase req w = (Ok r, w') ->
  (status r = 200 \/ status r = 404) /\ res_headers r = cors.
Proof.
  intros H. unfold handle_get in H. run_back; simpl; auto.
Qed.

Lemma handle_post_returns (req : Request) (w : World) :
  exists r w',
    handle_post JSON_parse req w = (Ok r, w')
    /\ (status r = 201 \/ status r = 400 \/ status r = 500)
    /\ res_headers r = cors.
Proof.
  unfold handle_post, try_catch at 1.
  match goal with |- context [match ?m w with _ => _ end] =>
    destruct (m w) as [[r|e] w1] eqn:Hrun end.
  - exists r, w1. split; [reflexivity|]. run_back; simpl; auto.
  - eexists. eexists. split; [reflexivity|]. simpl. auto.
Qed.

Lemma handle_delete_returns (req : Request) (w : World) :
  exists r w',
    handle_delete JSON_parse req w = (Ok r, w')
    /\ (status r = 200 \/ status r = 400 \/ status r = 500)
    /\ res_headers r = cors.
Proof.
  unfold handle_delete, try_catch at 1.
  match goal with |- context [match ?m w with _ => _ end] =>
    destruct (m w) as [[r|e] w1] eqn:Hrun end.
  - exists r, w1. split; [reflexivity|]. run_back; simpl; auto.
  - eexists. eexists. split; [reflexivity|]. simpl. auto.
Qed.

(** Every run of the handler ends in a response of one of these shapes. *)
Lemma handler_returns (req : Request) (w : World) :
  exists r w',
    handler JSON_parse toLowerCase req w = (Ok r, w')
    /\ ((In (status r) [200; 201; 400; 401; 404; 500]
         /\ res_headers r = cors)
        \/ (status r = 405
            /\ res_headers r = (cors ++ [allow_header])%list)).
Proof.
  unfold handler.
  destruct (method req =? "OPTIONS")%string.
  { eexists. eexists. split; [reflexivity|]. left. simpl. auto. }
  unfold bind at 1.
  assert (Hgate : exists ok,
             (if (method req =? "GET")%string then ret true
              else fun w0 => (validateApiKey req w0, w0)) w = (Ok ok, w)).
  { destruct (method req =? "GET")%string.
    - exists true. reflexivity.
    - rewrite validateApiKey_value. eexists. reflexivity. }
  destruct Hgate as [ok ->].
  destruct ok; cbn [negb].
  2:{ eexists. eexists. split; [reflexivity|]. left. simpl. auto 10. }
  unfold try_catch.
  destruct (method req =? "GET")%string.
  { destruct (handle_get JSON_parse toLowerCase req w) as [[r|e] w1] eqn:Hrun.
    - exists r, w1. split; [reflexivity|].
      destruct (handle_get_shape _ _ _ _ Hrun) as [[Hs | Hs] Hh];
        left; rewrite Hs; simpl; auto 10.
    - eexists. eexists. split; [reflexivity|]. left. simpl. auto 10. }
  destruct (method req =? "POST")%string.
  { destruct (handle_post_returns req w) as (r & w1 & Hrun & Hs & Hh).
    rewrite Hrun. exists r, w1. split; [reflexivity|].
    left. split; [|exact Hh].
    destruct Hs as [Hs | [Hs | Hs]]; rewrite Hs; simpl; auto 10. }
  destruct (method req =? "DELETE")%string.
  { destruct (handle_delete_returns req w) as (r & w1 & Hrun & Hs & Hh).
    rewrite Hrun. exists r, w1. split; [reflexivity|].
    left. split; [|exact Hh].
    destruct Hs as [Hs | [Hs | Hs]]; rewrite Hs; simpl; auto 10. }
  eexists. eexists. split; [reflexivity|]. right. split; reflexivity.
Qed.

(** X1. No exception leaves the handler: whatever the request and the state
    of the store, it returns a response, and its status is one of 200, 201,
    400, 401, 404, 405 and 500. *)
Theorem handler_never_throws (req : Request) (w : World) :
  exists r w',
    handler JSON_parse toLowerCase req w = (Ok r, w')
    /\ In (status r) [200; 201; 400; 401; 404; 405; 500].
Proof.
  destruct (handler_returns req w) as (r & w' & Hrun & Hshape).
  exists r, w'. split; [exact Hrun|].
  destruct Hshape as [[Hs _] | [Hs _]].
  - simpl in Hs. simpl. intuition.
  - rewrite Hs. simpl. auto 10.
Qed.

(** X2. Every response carries the three CORS headers, and nothing else
    except the [Allow] header of a 405. *)
Theorem cors_on_every_response (req : Request) (w : World) :
  exists extra,
    res_headers (match fst (handler JSON_parse toLowerCase req w) with
                 | Ok r => r
                 | Throw _ => respond 500 NoBody
                 end) = (cors ++ extra)%list
    /\ (extra = [] \/ extra = [allow_header]).
Proof.
  destruct (handler_returns req w) as (r & w' & Hrun & Hshape).
  rewrite Hrun. simpl.
  destruct Hshape as [[_ Hh] | [_ Hh]]; rewrite Hh.
  - exists []. split; [reflexivity | left; reflexivity].
  - exists [allow_header]. split; [reflexivity | right; reflexivity].
Qed.

End Boundary.

(** ** Dispatch on the method *)

Section Dispatch.

Variable JSON_parse : string -> option value.
Variable toLowerCase : string -> string.

(** X3. A method other than OPTIONS, GET, POST and DELETE meets the gate
    first: without a pass it is answered 401, with one 405 with the [Allow]
    header and the method named in the text.  Neither touches the store. *)
Theorem unknown_method_gated (req : Request) (w : World) :
  method req <> "OPTIONS" -> method req <> "GET" ->
  method req <> "POST" -> method req <> "DELETE" ->
  (validateApiKey req w = Ok false ->
   handler JSON_parse toLowerCase req w
   = (Ok (respond 401 (Json (VObj
            [ ("error", VStr "Invalid or missing API key") ]))), w))
  /\ (validateApiKey req w = Ok true ->
      handler JSON_parse toLowerCase req w
      = (Ok (mkResponse 405 (cors ++ [allow_header])
               (Text ("Method " ++ method req ++ " Not Allowed"))), w)).
Proof.
  intros Ho Hg Hp Hd.
  apply String.eqb_neq in Ho, Hg, Hp, Hd.
  split; intros Hgate; unfold handler; rewrite Ho, Hg;
    unfold bind; rewrite Hgate; cbn [negb]; [reflexivity|].
  unfold try_catch. rewrite Hp, Hd. reflexivity.
Qed.

(** X4. A GET is served from its query alone: two GET requests with the
    same query get the same response and leave the same world, whatever
    their headers, key and body; and a GET is never answered 401. *)
Theorem get_ignores_credentials (req req' : Request) (w : World) :
  method req = "GET" -> method req' = "GET" -> query req = query req' ->
  handler JSON_parse toLowerCase req w = handler JSON_parse toLowerCase req' w
  /\ forall r w', handler JSON_parse toLowerCase req w = (Ok r, w') ->
                  In (status r) [200; 404; 500].
Proof.
  intros Hm Hm' Hq. split.
  - unfold handler, handle_get. rewrite Hm, Hm', Hq. reflexivity.
  - intros r w' Hrun. unfold handler in Hrun. rewrite Hm in Hrun.
    cbn [String.eqb Ascii.eqb Bool.eqb] in Hrun.
    apply bind_ok_inv in Hrun. destruct Hrun as (ok & w1 & Hgate & Hrun).
    apply ret_inv in Hgate. destruct Hgate as [<- <-]. cbn [negb] in Hrun.
    apply try_catch_ok_inv in Hrun.
    destruct Hrun as [Hrun | (e & w2 & _ & Hrun)].
    + destruct (handle_get_shape JSON_parse toLowerCase _ _ _ _ Hrun) as [[Hs | Hs] _];
        rewrite Hs; simpl; auto.
    + apply ret_inv in Hrun. destruct Hrun as [<- _]. simpl. auto.
Qed.

Lemma str_includes_refl_empty (s : string) : str_includes s "" = true.
Proof.
  apply str_includes_spec. exists "", s. reflexivity.
Qed.

(** X5. In development mode, and whenever the Referer is not empty and
    contains the Host (always so when the request has no Host header), the
    gate lets the request pass whatever key it brings and whatever secret is
    configured; the handler does not answer it 401. *)
Theorem gate_open_without_key (req : Request) (w : World) :
  NODE_ENV w = Some "development"
  \/ (header_or_empty "referer" req <> ""
      /\ (header "host" (headers req) = None
          \/ exists pre post,
               header_or_empty "referer" req
               = (pre ++ header_or_empty "host" req ++ post)%string)) ->
  validateApiKey req w = Ok true
  /\ forall r w', handler JSON_parse toLowerCase req w = (Ok r, w') -> status r <> 401.
Proof.
  intros Hopen.
  assert (Hgate : validateApiKey req w = Ok true).
  { rewrite validateApiKey_value.
    destruct Hopen as [Hdev | [Href Hhost]].
    - unfold development. rewrite Hdev. reflexivity.
    - assert (Hsame : same_origin req = true).
      { unfold same_origin. apply andb_true_iff. split.
        - apply negb_true_iff, String.eqb_neq, Href.
        - destruct Hhost as [Hnone | Hsub].
          + unfold header_or_empty at 2. rewrite Hnone.
            apply str_includes_refl_empty.
          + apply str_includes_spec. exact Hsub. }
      rewrite Hsame, orb_true_r. reflexivity. }
  split; [exact Hgate|].
  intros r w'. apply authorized_not_401. exact Hgate.
Qed.

(** X6. When the Redis client could not be constructed, every request that
    needs the catalog is answered 500 without any I/O: a GET with the
    message of [readProducts], a valid POST likewise, and a valid DELETE
    with the message of [deleteProductsByIds], which hides the cause. *)
Theorem store_unavailable (req : Request) (w : World) :
  redis_ready w = false ->
  (method req = "GET" ->
   handler JSON_parse toLowerCase req w
   = (Ok (respond 500 (error_body "Server error"
            (JsError "Database connection not available"))), w))
  /\ (method req = "POST" -> validateApiKey req w = Ok true ->
      truthy (prop "title" (body req)) = true ->
      truthy (prop "productUrl" (body req)) = true ->
      handler JSON_parse toLowerCase req w
      = (Ok (respond 500 (error_body "Error adding product"
               (JsError "Database connection not available"))), w))
  /\ (method req = "DELETE" -> validateApiKey req w = Ok true ->
      (exists i rest, prop "ids" (body req) = VArr (i :: rest)) ->
      handler JSON_parse toLowerCase req w
      = (Ok (respond 500 (error_body "Error deleting products"
               (JsError "Failed to delete products"))), w)).
Proof.
  intros Hdown.
  assert (Hread : readProducts JSON_parse w
                  = (Throw (JsError "Database connection not available"), w)).
  { unfold readProducts. rewrite Hdown. reflexivity. }
  split; [|split].
  - intros Hm. unfold handler. rewrite Hm.
    cbn [String.eqb Ascii.eqb Bool.eqb].
    unfold bind at 1, ret at 1. cbn [negb].
    unfold try_catch, handle_get, getProductById, searchProductsByTitle.
    destruct (truthy (lookup "id" (query req)));
      [|destruct (truthy (lookup "title" (query req)))];
      unfold bind; rewrite Hread; reflexivity.
  - intros Hm Hgate Htitle Hurl.
    assert (Hbody : nullish (body req) = false).
    { destruct (body req); try reflexivity; discriminate. }
    unfold handler. rewrite Hm. cbn [String.eqb Ascii.eqb Bool.eqb].
    unfold bind at 1. rewrite Hgate. cbn [negb].
    unfold try_catch at 1, handle_post, try_catch, bind, lift, Date_now, ret.
    rewrite !(get_prop_ok _ _ Hbody), Htitle, Hurl. cbn [negb orb].
    rewrite Hread. reflexivity.
  - intros Hm Hgate (i & rest & Hids).
    assert (Hbody : nullish (body req) = false).
    { destruct (body req); try reflexivity; discriminate. }
    unfold handler. rewrite Hm. cbn [String.eqb Ascii.eqb Bool.eqb].
    unfold bind at 1. rewrite Hgate. cbn [negb].
    unfold try_catch at 1, handle_delete, try_catch at 1, bind at 1, lift.
    rewrite (get_prop_ok _ _ Hbody), Hids.
    cbn [truthy is_array array_items length Nat.eqb negb orb].
    unfold bind, deleteProductsByIds, try_catch, bind.
    rewrite Hread. reflexivity.
Qed.

End Dispatch.

(** ** Reading and writing the store *)

Section Store.

Variable JSON_parse : string -> option value.
Variable toLowerCase : string -> string.

Lemma next_fault_at (w : World) : next_fault w = fault_at 0 w.
Proof. unfold next_fault, fault_at. destruct (redis_faults w); reflexivity. Qed.

Lemma fault_at_call (k : nat) (ev : io_event) (v : value) (w : World) :
  fault_at k (redis_call ev v w) = fault_at (S k) w.
Proof.
  unfold fault_at, redis_call. simpl.
  destruct (redis_faults w) as [|b l]; [destruct k|]; reflexivity.
Qed.

Lemma fault_at_log (k : nat) (ev : io_event) (w : World) :
  fault_at k (log_event ev w) = fault_at k w.
Proof. reflexivity. Qed.

(** A successful read of a truthy stored value, by fault index. *)
Lemma readProducts_hit (w : World) :
  redis_ready w = true -> fault_at 0 w = false ->
  truthy (kv_products w) = true ->
  readProducts JSON_parse w
  = (Ok (kv_products w), redis_call RedisGet (kv_products w) w).
Proof.
  intros Hr Hf Ht. apply readProducts_stored; [exact Hr | | exact Ht].
  rewrite next_fault_at. exact Hf.
Qed.

(** A successful seeding, by fault index. *)
Lemma readProducts_seeded (w : World) (text : string) (seed : value) :
  redis_ready w = true -> fault_at 0 w = false -> fault_at 1 w = false ->
  truthy (kv_products w) = false ->
  seed_file w = Some text -> JSON_parse text = Some seed ->
  readProducts JSON_parse w
  = (Ok seed,
     redis_call (RedisSet seed) seed
       (log_event FsReadFile (redis_call RedisGet (kv_products w) w))).
Proof.
  intros Hr Hf0 Hf1 Ht Hfile Hparse.
  rewrite <- next_fault_at in Hf0.
  rewrite (readProducts_falsy JSON_parse w Hr Hf0 Ht), Hfile, Hparse.
  unfold fault_at in Hf1. rewrite Hf1. reflexivity.
Qed.

(** X7. Reading twice without a mutation in between returns the same
    content: with a truthy stored value both reads return it, the store is
    left as it was, and the only calls made are the two [get]s. *)
Theorem read_twice_same (w : World) :
  redis_ready w = true ->
  truthy (kv_products w) = true ->
  fault_at 0 w = false -> fault_at 1 w = false ->
  exists w1 w2,
    readProducts JSON_parse w = (Ok (kv_products w), w1)
    /\ readProducts JSON_parse w1 = (Ok (kv_products w), w2)
    /\ kv_products w2 = kv_products w
    /\ io_log w2 = (io_log w ++ [RedisGet; RedisGet])%list.
Proof.
  intros Hr Ht Hf0 Hf1.
  exists (redis_call RedisGet (kv_products w) w).
  eexists. split; [apply readProducts_hit; assumption|].
  split.
  - rewrite readProducts_hit; [reflexivity | exact Hr | | exact Ht].
    rewrite fault_at_call. exact Hf1.
  - split; [reflexivity|]. simpl. rewrite <- app_assoc. reflexivity.
Qed.

(** X8. Seeding happens at most once: after a read that seeded the store
    with a truthy seed (any array is one), the next read returns the seed
    from the store with one [get], without reading the file or writing. *)
Theorem seeding_at_most_once (w : World) (text : string) (seed : value) :
  redis_ready w = true ->
  truthy (kv_products w) = false ->
  seed_file w = Some text -> JSON_parse text = Some seed ->
  truthy seed = true ->
  fault_at 0 w = false -> fault_at 1 w = false -> fault_at 2 w = false ->
  exists w1 w2,
    readProducts JSON_parse w = (Ok seed, w1)
    /\ readProducts JSON_parse w1 = (Ok seed, w2)
    /\ kv_products w2 = seed
    /\ io_log w1 = (io_log w ++ [RedisGet; FsReadFile; RedisSet seed])%list
    /\ io_log w2 = (io_log w1 ++ [RedisGet])%list.
Proof.
  intros Hr Ht Hfile Hparse Hseed Hf0 Hf1 Hf2.
  eexists. eexists.
  split; [apply (readProducts_seeded w text seed); assumption|].
  split.
  - rewrite readProducts_hit; [reflexivity | exact Hr | | exact Hseed].
    rewrite fault_at_call, fault_at_log, fault_at_call. exact Hf2.
  - split; [reflexivity|]. split; [|reflexivity].
    simpl. rewrite <- !app_assoc. reflexivity.
Qed.

(** X9. A seeding whose write to the store failed is not remembered: that
    read returns the empty array, the key stays as it was, and the next read
    seeds again and, the write now succeeding, returns the seed. *)
Theorem failed_seeding_is_retried (w : World) (text : string) (seed : value) :
  redis_ready w = true ->
  truthy (kv_products w) = false ->
  seed_file w = Some text -> JSON_parse text = Some seed ->
  fault_at 0 w = false -> fault_at 1 w = true ->
  fault_at 2 w = false -> fault_at 3 w = false ->
  exists w1 w2,
    readProducts JSON_parse w = (Ok (VArr []), w1)
    /\ kv_products w1 = kv_products w
    /\ readProducts JSON_parse w1 = (Ok seed, w2)
    /\ kv_products w2 = seed.
Proof.
  intros Hr Ht Hfile Hparse Hf0 Hf1 Hf2 Hf3.
  pose proof Hf0 as Hn0. rewrite <- next_fault_at in Hn0.
  pose proof (readProducts_falsy JSON_parse w Hr Hn0 Ht) as Hfirst.
  cbv zeta in Hfirst. rewrite Hfile, Hparse in Hfirst.
  unfold fault_at in Hf1. rewrite Hf1 in Hfirst.
  eexists. eexists. split; [exact Hfirst|]. split; [reflexivity|].
  split.
  - apply (readProducts_seeded _ text seed).
    + exact Hr.
    + rewrite fault_at_call, fault_at_log, fault_at_call. exact Hf2.
    + rewrite fault_at_call, fault_at_log, fault_at_call. exact Hf3.
    + exact Ht.
    + exact Hfile.
    + exact Hparse.
  - reflexivity.
Qed.

(** X10. What is written is what is read: after [writeProducts v] with a
    truthy [v], [readProducts] returns [v]. *)
Theorem write_then_read (v : value) (w : World) :
  redis_ready w = true -> truthy v = true ->
  fault_at 0 w = false -> fault_at 1 w = false ->
  exists w1 w2,
    writeProducts v w = (Ok tt, w1)
    /\ readProducts JSON_parse w1 = (Ok v, w2)
    /\ kv_products w2 = v.
Proof.
  intros Hr Hv Hf0 Hf1.
  eexists. eexists. split.
  - apply writeProducts_ok; [exact Hr|]. rewrite next_fault_at. exact Hf0.
  - split.
    + rewrite readProducts_hit; [reflexivity | exact Hr | | exact Hv].
      rewrite fault_at_call. exact Hf1.
    + reflexivity.
Qed.

End Store.

(** ** Mutations and what follows them *)

Section Mutations.

Variable JSON_parse : string -> option value.
Variable toLowerCase : string -> string.

Lemma string_of_Z_nonempty (n : Z) : string_of_Z n <> "".
Proof.
  unfold string_of_Z, NilZero.string_of_int.
  destruct (Z.to_int n) as [d|d]; [|discriminate].
  destruct d; simpl; discriminate.
Qed.

Lemma truthy_body_of_prop (k : string) (b : value) :
  truthy (prop k b) = true -> nullish b = false.
Proof. destruct b; simpl; intros H; try discriminate; reflexivity. Qed.

(** The run of a valid POST on a stored array. *)
Lemma post_run (req : Request) (w : World) (ps : list value) :
  method req = "POST" ->
  validateApiKey req w = Ok true ->
  truthy (prop "title" (body req)) = true ->
  truthy (prop "productUrl" (body req)) = true ->
  redis_ready w = true -> kv_products w = VArr ps ->
  fault_at 0 w = false ->
  let product :=
    newProduct (date_now w) (prop "title" (body req))
      (prop "imageUrl" (body req)) (prop "description" (body req))
      (prop "productUrl" (body req)) in
  let w1 := redis_call RedisGet (VArr ps) w in
  handler JSON_parse toLowerCase req w
  = if fault_at 1 w
    then (Ok (respond 500 (error_body "Error adding product"
                (JsError "Failed to save product data."))),
          redis_call (RedisSet (VArr (ps ++ [product]))) (VArr ps) w1)
    else (Ok (respond 201 (Json product)),
          redis_call (RedisSet (VArr (ps ++ [product])))
                     (VArr (ps ++ [product])) w1).
Proof.
  intros Hm Hgate Htitle Hurl Hr Hkv Hf0 product w1.
  pose proof (truthy_body_of_prop _ _ Htitle) as Hbody.
  assert (Hread : readProducts JSON_parse w = (Ok (VArr ps), w1)).
  { rewrite (readProducts_hit JSON_parse w Hr Hf0); rewrite Hkv; reflexivity. }
  assert (Hf1 : next_fault w1 = fault_at 1 w).
  { rewrite next_fault_at. apply fault_at_call. }
  unfold handler. rewrite Hm. cbn [String.eqb Ascii.eqb Bool.eqb].
  unfold bind at 1. rewrite Hgate. cbn [negb].
  unfold try_catch at 1, handle_post, try_catch, bind, lift, Date_now, ret.
  rewrite !(get_prop_ok _ _ Hbody), Htitle, Hurl. cbn [negb orb].
  rewrite Hread. cbn [as_array].
  destruct (fault_at 1 w).
  - rewrite (writeProducts_fault _ w1 Hr Hf1). reflexivity.
  - rewrite (writeProducts_ok _ w1 Hr Hf1). reflexivity.
Qed.

(** The run of [deleteProductsByIds] on a stored array. *)
Lemma delete_run (ids ps : list value) (w : World) :
  redis_ready w = true -> kv_products w = VArr ps ->
  Forall (fun p => nullish p = false) ps ->
  fault_at 0 w = false -> fault_at 1 w = false ->
  let listed := fun p => includes ids (prop "id" p) in
  let remaining := filter (fun p => negb (listed p)) ps in
  let removed := filter listed ps in
  deleteProductsByIds JSON_parse ids w
  = (Ok (mkDeleteResult (length removed) (map (prop "id") removed)
                        (length remaining)),
     redis_call (RedisSet (VArr remaining)) (VArr remaining)
                (redis_call RedisGet (VArr ps) w)).
Proof.
  intros Hr Hkv Hps Hf0 Hf1 listed remaining removed.
  assert (Hread : readProducts JSON_parse w
                  = (Ok (VArr ps), redis_call RedisGet (VArr ps) w)).
  { rewrite (readProducts_hit JSON_parse w Hr Hf0); rewrite Hkv; reflexivity. }
  pose proof (id_listed_total ids ps Hps) as Hlisted.
  assert (Hkeep : filter_r (fun product =>
              rbind (id_listed ids product) (fun b => Ok (negb b))) ps
            = Ok remaining).
  { apply filter_r_total. revert Hlisted. apply Forall_impl.
    intros p Hp. rewrite Hp. reflexivity. }
  assert (Hgone : filter_r (id_listed ids) ps = Ok removed)
    by (apply filter_r_total; exact Hlisted).
  assert (Hids : map_r (fun product => get_prop product "id") removed
                 = Ok (map (prop "id") removed)).
  { apply map_r_total. apply Forall_filter. revert Hps. apply Forall_impl.
    intros p Hp. apply get_prop_ok. exact Hp. }
  unfold deleteProductsByIds, try_catch, bind, lift, ret.
  rewrite Hread. cbn [as_array]. rewrite Hkeep.
  rewrite writeProducts_ok;
    [| exact Hr | rewrite next_fault_at, fault_at_call; exact Hf1].
  rewrite Hgone, Hids, length_map. reflexivity.
Qed.

(** X11. What a POST created, a GET by its id finds: when no product of the
    catalog already has the id made from the clock, the GET that follows the
    POST with that id is answered 200 with the product of the 201. *)
Theorem post_then_get_by_id (post get : Request) (w : World)
        (ps : list value) :
  method post = "POST" ->
  validateApiKey post w = Ok true ->
  truthy (prop "title" (body post)) = true ->
  truthy (prop "productUrl" (body post)) = true ->
  redis_ready w = true -> kv_products w = VArr ps ->
  Forall (fun p => nullish p = false) ps ->
  (forall p, In p ps ->
             strict_equals (prop "id" p) (VStr (string_of_Z (date_now w)))
             = false) ->
  fault_at 0 w = false -> fault_at 1 w = false -> fault_at 2 w = false ->
  method get = "GET" ->
  lookup "id" (query get) = VStr (string_of_Z (date_now w)) ->
  exists product w1 w2,
    handler JSON_parse toLowerCase post w = (Ok (respond 201 (Json product)), w1)
    /\ handler JSON_parse toLowerCase get w1 = (Ok (respond 200 (Json product)), w2)
    /\ kv_products w2 = VArr (ps ++ [product]).
Proof.
  intros Hm Hgate Htitle Hurl Hr Hkv Hps Hfresh Hf0 Hf1 Hf2 Hg Hid.
  pose proof (post_run post w ps Hm Hgate Htitle Hurl Hr Hkv Hf0) as Hpost.
  cbv zeta in Hpost. rewrite Hf1 in Hpost.
  eexists. eexists. eexists. split; [exact Hpost|].
  match goal with |- handler _ _ _ ?w1 = _ /\ _ => set (w1' := w1) end.
  match type of Hpost with _ = (Ok (respond 201 (Json ?p)), _) =>
    set (product := p) in * end.
  assert (Hidt : truthy (VStr (string_of_Z (date_now w))) = true).
  { simpl. apply negb_true_iff, String.eqb_neq, string_of_Z_nonempty. }
  assert (Hread : readProducts JSON_parse w1'
                  = (Ok (VArr (ps ++ [product])),
                     redis_call RedisGet (VArr (ps ++ [product])) w1')).
  { rewrite readProducts_hit; [reflexivity | exact Hr | | reflexivity].
    unfold w1'. rewrite !fault_at_call. exact Hf2. }
  assert (Hget : getProductById JSON_parse (VStr (string_of_Z (date_now w))) w1'
                 = (Ok product,
                    redis_call RedisGet (VArr (ps ++ [product])) w1')).
  { unfold getProductById, bind, lift, ret. rewrite Hread. cbn [as_array].
    rewrite (find_r_first _ ps [] product
               (id_test_miss _ ps Hps Hfresh)).
    - reflexivity.
    - simpl. rewrite String.eqb_refl. reflexivity. }
  split.
  - unfold handler. rewrite Hg. cbn [String.eqb Ascii.eqb Bool.eqb].
    unfold bind at 1, ret at 1. cbn [negb].
    unfold try_catch, handle_get. rewrite Hid, Hidt.
    unfold bind. rewrite Hget. reflexivity.
  - reflexivity.
Qed.

Lemma includes_hit (ids : list value) (x id : value) :
  includes ids x = false -> includes ids id = true ->
  strict_equals x id = false.
Proof.
  intros Hx Hid. destruct (strict_equals x id) eqn:Heq; [|reflexivity].
  apply strict_equals_eq in Heq. subst. congruence.
Qed.

Lemma filter_twice {A} (f : A -> bool) (l : list A) :
  filter f (filter f l) = filter f l.
Proof.
  induction l as [|x l IH]; simpl; [reflexivity|].
  destruct (f x) eqn:Hx; simpl; [rewrite Hx, IH|]; auto.
Qed.

Lemma filter_complement {A} (f : A -> bool) (l : list A) :
  filter f (filter (fun x => negb (f x)) l) = [].
Proof.
  induction l as [|x l IH]; simpl; [reflexivity|].
  destruct (f x) eqn:Hx; simpl; [|rewrite Hx]; exact IH.
Qed.

Lemma filter_all {A} (f : A -> bool) (l : list A) :
  (forall x, In x l -> f x = true) -> filter f l = l.
Proof.
  induction l as [|x l IH]; simpl; intros H; [reflexivity|].
  rewrite (H x (or_introl eq_refl)), IH; [reflexivity|].
  intros y Hy. apply H. right. exact Hy.
Qed.

Lemma filter_none {A} (f : A -> bool) (l : list A) :
  (forall x, In x l -> f x = false) -> filter f l = [].
Proof.
  induction l as [|x l IH]; simpl; intros H; [reflexivity|].
  rewrite (H x (or_introl eq_refl)). apply IH.
  intros y Hy. apply H. right. exact Hy.
Qed.

(** X12. A deleted id is gone: after [deleteProductsByIds ids], looking up
    any truthy id of the list returns [null]. *)
Theorem deleted_id_not_found (ids ps : list value) (id : value) (w : World) :
  redis_ready w = true -> kv_products w = VArr ps ->
  Forall (fun p => nullish p = false) ps ->
  fault_at 0 w = false -> fault_at 1 w = false -> fault_at 2 w = false ->
  includes ids id = true ->
  exists r w1 w2,
    deleteProductsByIds JSON_parse ids w = (Ok r, w1)
    /\ getProductById JSON_parse id w1 = (Ok VNull, w2).
Proof.
  intros Hr Hkv Hps Hf0 Hf1 Hf2 Hid.
  pose proof (delete_run ids ps w Hr Hkv Hps Hf0 Hf1) as Hdel.
  cbv zeta in Hdel.
  eexists. eexists. eexists. split; [exact Hdel|].
  set (remaining := filter (fun p => negb (includes ids (prop "id" p))) ps)
    in *.
  assert (Hrem : Forall (fun p => nullish p = false) remaining)
    by (apply Forall_filter; exact Hps).
  assert (Hmiss : forall p, In p remaining ->
                            strict_equals (prop "id" p) id = false).
  { intros p Hp. apply filter_In in Hp. destruct Hp as [_ Hp].
    apply negb_true_iff in Hp. exact (includes_hit ids _ id Hp Hid). }
  unfold getProductById, bind, lift, ret.
  rewrite readProducts_hit; [| exact Hr | | reflexivity].
  - cbn [kv_products redis_call as_array].
    rewrite (find_r_none _ _ (id_test_miss id remaining Hrem Hmiss)).
    reflexivity.
  - rewrite !fault_at_call. exact Hf2.
Qed.

(** X13. Deleting is idempotent: a second [deleteProductsByIds] with the
    same ids removes nothing, reports no deleted id, and writes the same
    catalog again. *)
Theorem delete_twice (ids ps : list value) (w : World) :
  redis_ready w = true -> kv_products w = VArr ps ->
  Forall (fun p => nullish p = false) ps ->
  fault_at 0 w = false -> fault_at 1 w = false ->
  fault_at 2 w = false -> fault_at 3 w = false ->
  exists r1 w1 r2 w2,
    deleteProductsByIds JSON_parse ids w = (Ok r1, w1)
    /\ deleteProductsByIds JSON_parse ids w1 = (Ok r2, w2)
    /\ deletedCount r2 = 0%nat
    /\ deletedIds r2 = []
    /\ remainingCount r2 = remainingCount r1
    /\ kv_products w2 = kv_products w1.
Proof.
  intros Hr Hkv Hps Hf0 Hf1 Hf2 Hf3.
  pose proof (delete_run ids ps w Hr Hkv Hps Hf0 Hf1) as Hdel.
  cbv zeta in Hdel.
  set (listed := fun p => includes ids (prop "id" p)) in *.
  set (remaining := filter (fun p => negb (listed p)) ps) in *.
  match type of Hdel with _ = (_, ?x) => set (w1 := x) in * end.
  assert (Hsecond := delete_run ids remaining w1 Hr eq_refl
                       (Forall_filter _ _ _ Hps)).
  cbv zeta in Hsecond. fold listed in Hsecond. unfold remaining in Hsecond.
  rewrite (filter_twice (fun p => negb (listed p)) ps) in Hsecond.
  rewrite (filter_complement listed ps) in Hsecond.
  fold remaining in Hsecond.
  eexists. exists w1. eexists. eexists.
  split; [exact Hdel|]. split.
  - apply Hsecond; unfold w1; rewrite !fault_at_call; assumption.
  - repeat split.
Qed.

(** X14. An authorised DELETE with a non-empty [ids] array is answered 200
    with the summary of [deleteProductsByIds]; when no product has a listed
    id this is still a 200, saying that 0 products were deleted, and the
    catalog written back is the one that was read. *)
Theorem delete_request_summary (req : Request) (w : World)
        (i : value) (rest ps : list value) :
  method req = "DELETE" ->
  validateApiKey req w = Ok true ->
  prop "ids" (body req) = VArr (i :: rest) ->
  redis_ready w = true -> kv_products w = VArr ps ->
  Forall (fun p => nullish p = false) ps ->
  fault_at 0 w = false -> fault_at 1 w = false ->
  let listed := fun p => includes (i :: rest) (prop "id" p) in
  let remaining := filter (fun p => negb (listed p)) ps in
  let removed := filter listed ps in
  exists w',
    handler JSON_parse toLowerCase req w
    = (Ok (respond 200 (Json (delete_summary
             (mkDeleteResult (length removed) (map (prop "id") removed)
                             (length remaining))))), w')
    /\ kv_products w' = VArr remaining
    /\ ((forall p, In p ps -> listed p = false) ->
        removed = [] /\ remaining = ps
        /\ prop "message" (delete_summary
               (mkDeleteResult (length removed) (map (prop "id") removed)
                               (length remaining)))
           = VStr "Successfully deleted 0 products").
Proof.
  intros Hm Hgate Hids Hr Hkv Hps Hf0 Hf1 listed remaining removed.
  assert (Hbody : nullish (body req) = false).
  { destruct (body req); try reflexivity; discriminate. }
  pose proof (delete_run (i :: rest) ps w Hr Hkv Hps Hf0 Hf1) as Hdel.
  cbv zeta in Hdel. fold listed remaining removed in Hdel.
  eexists. split; [|split].
  - unfold handler. rewrite Hm. cbn [String.eqb Ascii.eqb Bool.eqb].
    unfold bind at 1. rewrite Hgate. cbn [negb].
    unfold try_catch at 1, handle_delete, try_catch at 1, bind at 1, lift.
    rewrite (get_prop_ok _ _ Hbody), Hids.
    cbn [truthy is_array array_items length Nat.eqb negb orb].
    unfold bind. rewrite Hdel. reflexivity.
  - reflexivity.
  - intros Hnone.
    assert (Hrm : removed = []) by (apply filter_none; exact Hnone).
    assert (Hkp : remaining = ps).
    { apply filter_all. intros p Hp. rewrite (Hnone p Hp). reflexivity. }
    split; [exact Hrm|]. split; [exact Hkp|]. rewrite Hrm. reflexivity.
Qed.

(** X15. A POST whose write to the store fails is answered 500 with the
    message of [writeProducts], and the store keeps the catalog it had. *)
Theorem post_write_failure (req : Request) (w : World) (ps : list value) :
  method req = "POST" ->
  validateApiKey req w = Ok true ->
  truthy (prop "title" (body req)) = true ->
  truthy (prop "productUrl" (body req)) = true ->
  redis_ready w = true -> kv_products w = VArr ps ->
  fault_at 0 w = false -> fault_at 1 w = true ->
  exists w',
    handler JSON_parse toLowerCase req w
    = (Ok (respond 500 (error_body "Error adding product"
             (JsError "Failed to save product data."))), w')
    /\ kv_products w' = VArr ps.
Proof.
  intros Hm Hgate Htitle Hurl Hr Hkv Hf0 Hf1.
  pose proof (post_run req w ps Hm Hgate Htitle Hurl Hr Hkv Hf0) as Hpost.
  cbv zeta in Hpost. rewrite Hf1 in Hpost.
  eexists. split; [exact Hpost | reflexivity].
Qed.

(** X16. When the key holds a truthy value that is not an array, a valid
    POST and a valid DELETE are answered 500 after the one [get]: nothing is
    written and the stored value stays. *)
Theorem non_array_catalog (req : Request) (w : World) :
  redis_ready w = true ->
  truthy (kv_products w) = true -> is_array (kv_products w) = false ->
  fault_at 0 w = false ->
  validateApiKey req w = Ok true ->
  (method req = "POST"
   /\ truthy (prop "title" (body req)) = true
   /\ truthy (prop "productUrl" (body req)) = true)
  \/ (method req = "DELETE"
      /\ exists i rest, prop "ids" (body req) = VArr (i :: rest)) ->
  exists r w',
    handler JSON_parse toLowerCase req w = (Ok r, w')
    /\ status r = 500
    /\ kv_products w' = kv_products w
    /\ io_log w' = (io_log w ++ [RedisGet])%list.
Proof.
  intros Hr Ht Harr Hf0 Hgate Hcase.
  pose proof (readProducts_hit JSON_parse w Hr Hf0 Ht) as Hread.
  assert (Hnot : forall m, exists e, as_array m (kv_products w) = Throw e).
  { intros m. destruct (kv_products w); try discriminate;
      eexists; reflexivity. }
  destruct Hcase as [(Hm & Htitle & Hurl) | (Hm & i & rest & Hids)].
  - pose proof (truthy_body_of_prop _ _ Htitle) as Hbody.
    destruct (Hnot "products.push") as [e He].
    eexists. eexists. split.
    + unfold handler. rewrite Hm. cbn [String.eqb Ascii.eqb Bool.eqb].
      unfold bind at 1. rewrite Hgate. cbn [negb].
      unfold try_catch at 1, handle_post, try_catch, bind, lift, Date_now, ret.
      rewrite !(get_prop_ok _ _ Hbody), Htitle, Hurl. cbn [negb orb].
      rewrite Hread, He. reflexivity.
    + repeat split.
  - assert (Hbody : nullish (body req) = false).
    { destruct (body req); try reflexivity; discriminate. }
    destruct (Hnot "allProducts.filter") as [e He].
    eexists. eexists. split.
    + unfold handler. rewrite Hm. cbn [String.eqb Ascii.eqb Bool.eqb].
      unfold bind at 1. rewrite Hgate. cbn [negb].
      unfold try_catch at 1, handle_delete, try_catch at 1, bind at 1, lift.
      rewrite (get_prop_ok _ _ Hbody), Hids.
      cbn [truthy is_array array_items length Nat.eqb negb orb].
      unfold bind, deleteProductsByIds, try_catch, bind, lift.
      rewrite Hread, He. reflexivity.
    + repeat split.
Qed.

End Mutations.

(** ** Queries *)

Section MoreQueries.

Variable JSON_parse : string -> option value.
Variable toLowerCase : string -> string.

Lemma strict_equals_array (x : value) (l : list value) :
  strict_equals x (VArr l) = false.
Proof. destruct x; reflexivity. Qed.

(** X17. A query parameter given more than once arrives as an array: such
    an [id] equals no product id, so the GET is answered 404; such a
    [title] has no [toLowerCase], so the GET is answered 500 with the
    message that [searchTerm.toLowerCase] is not a function. *)
Theorem repeated_query_parameter (req : Request) (w w1 : World)
        (ps : list value) :
  method req = "GET" ->
  readProducts JSON_parse w = (Ok (VArr ps), w1) ->
  (forall l, lookup "id" (query req) = VArr l ->
             Forall (fun p => nullish p = false) ps ->
             exists r, handler JSON_parse toLowerCase req w = (Ok r, w1)
                       /\ status r = 404)
  /\ (forall l, truthy (lookup "id" (query req)) = false ->
                lookup "title" (query req) = VArr l ->
                handler JSON_parse toLowerCase req w
                = (Ok (respond 500 (error_body "Server error"
                         (TypeError "searchTerm.toLowerCase is not a function"))), w1)).
Proof.
  intros Hm Hread. split.
  - intros l Hid Hps.
    assert (Hmiss : forall p, In p ps ->
                strict_equals (prop "id" p) (VArr l) = false)
      by (intros p _; apply strict_equals_array).
    eexists. split.
    + unfold handler. rewrite Hm. cbn [String.eqb Ascii.eqb Bool.eqb].
      unfold bind at 1, ret at 1. cbn [negb].
      unfold try_catch, handle_get. rewrite Hid. cbn [truthy].
      unfold bind at 1, getProductById, bind, lift, ret.
      rewrite Hread. cbn [as_array].
      rewrite (find_r_none _ _ (id_test_miss (VArr l) ps Hps Hmiss)).
      reflexivity.
    + reflexivity.
  - intros l Hid Htitle.
    unfold handler. rewrite Hm. cbn [String.eqb Ascii.eqb Bool.eqb].
    unfold bind at 1, ret at 1. cbn [negb].
    unfold try_catch, handle_get. rewrite Hid, Htitle. cbn [truthy].
    unfold bind at 1, searchProductsByTitle, bind, lift.
    rewrite Hread. reflexivity.
Qed.

(** X18. The search looks at the term in lower case only: two terms that
    differ in case give the same result, in every state of the store.
    [toLowerCase] maps the empty string, and only it, to the empty string. *)
Theorem search_term_case_irrelevant (t t' : string) (w : World) :
  (forall s, toLowerCase s = "" <-> s = "") ->
  toLowerCase t = toLowerCase t' ->
  searchProductsByTitle JSON_parse toLowerCase (VStr t) w
  = searchProductsByTitle JSON_parse toLowerCase (VStr t') w.
Proof.
  intros Hempty Hlow.
  assert (Htruthy : truthy (VStr t) = truthy (VStr t')).
  { simpl. f_equal. destruct (String.eqb_spec t ""), (String.eqb_spec t' "");
      try reflexivity; subst.
    - assert (Ht' : toLowerCase t' = "")
        by (rewrite <- Hlow; apply Hempty; reflexivity).
      apply (proj1 (Hempty _)) in Ht'. contradiction.
    - assert (Ht : toLowerCase t = "")
        by (rewrite Hlow; apply Hempty; reflexivity).
      apply (proj1 (Hempty _)) in Ht. contradiction. }
  unfold searchProductsByTitle, bind.
  destruct (readProducts JSON_parse w) as [[products|e] w1]; [|reflexivity].
  rewrite Htruthy. destruct (truthy (VStr t')); [|reflexivity].
  cbn [negb call_toLowerCase lift]. rewrite Hlow. reflexivity.
Qed.

Lemma readProducts_truthy_world (w : World) :
  redis_ready w = true -> truthy (kv_products w) = true ->
  snd (readProducts JSON_parse w) = redis_call RedisGet (kv_products w) w.
Proof.
  intros Hr Ht. unfold readProducts, try_catch, bind, redis_get, ret, throw.
  rewrite Hr. cbn [negb].
  destruct (next_fault w); cbn [negb]; [reflexivity|].
  rewrite Ht. reflexivity.
Qed.

(** The world a GET leaves is the one its single [readProducts] leaves. *)
Lemma handle_get_world (req : Request) (w : World) :
  snd (handle_get JSON_parse toLowerCase req w) = snd (readProducts JSON_parse w).
Proof.
  unfold handle_get, getProductById, searchProductsByTitle.
  destruct (truthy (lookup "id" (query req))).
  - unfold bind, lift, ret.
    destruct (readProducts JSON_parse w) as [[products|e] w1]; [|reflexivity].
    destruct (as_array "products.find" products) as [items|e]; [|reflexivity].
    destruct (find_r _ items) as [found|e]; [|reflexivity].
    destruct (truthy (js_or found VNull)); reflexivity.
  - destruct (truthy (lookup "title" (query req))).
    + unfold bind, lift, ret.
      destruct (readProducts JSON_parse w) as [[products|e] w1];
        [|reflexivity].
      cbn [negb].
      destruct (call_toLowerCase _ _ _) as [low|e]; [|reflexivity].
      destruct (as_array "products.filter" products) as [items|e];
        [|reflexivity].
      destruct (filter_r _ items) as [kept|e]; reflexivity.
    + unfold bind, ret.
      destruct (readProducts JSON_parse w) as [[products|e] w1]; reflexivity.
Qed.

(** X19. A GET does to the world exactly what one [readProducts] does,
    whichever of its three forms it takes and whether it ends in 200, 404 or
    500.  On a store holding a truthy value that is one [get]: the stored
    value is not changed, and nothing is written or read from the file. *)
Theorem get_is_one_read (req : Request) (w : World) :
  method req = "GET" ->
  snd (handler JSON_parse toLowerCase req w) = snd (readProducts JSON_parse w)
  /\ (redis_ready w = true -> truthy (kv_products w) = true ->
      kv_products (snd (handler JSON_parse toLowerCase req w)) = kv_products w
      /\ io_log (snd (handler JSON_parse toLowerCase req w))
         = (io_log w ++ [RedisGet])%list).
Proof.
  intros Hm.
  assert (Hworld : snd (handler JSON_parse toLowerCase req w)
                   = snd (readProducts JSON_parse w)).
  { rewrite <- (handle_get_world req w).
    unfold handler. rewrite Hm. cbn [String.eqb Ascii.eqb Bool.eqb].
    unfold bind at 1, ret at 1. cbn [negb]. unfold try_catch.
    destruct (handle_get JSON_parse toLowerCase req w) as [[r|e] w1]; reflexivity. }
  split; [exact Hworld|].
  intros Hr Ht. rewrite Hworld, (readProducts_truthy_world w Hr Ht).
  split; reflexivity.
Qed.

End MoreQueries.

(** ** An invariant of the store *)

Section Invariant.

Variable JSON_parse : string -> option value.
Variable toLowerCase : string -> string.

(** Under the invariant the read returns the stored array or throws, and
    leaves the key alone. *)
Lemma read_well_formed (w : World) (ps : list value) :
  kv_products w = VArr ps ->
  exists w1,
    kv_products w1 = VArr ps
    /\ (readProducts JSON_parse w = (Ok (VArr ps), w1)
        \/ exists e, readProducts JSON_parse w = (Throw e, w1)).
Proof.
  intros Hkv. unfold readProducts, try_catch, bind, redis_get, ret, throw.
  destruct (redis_ready w); cbn [negb].
  - destruct (next_fault w); cbn [negb].
    + eexists. split; [|right; eexists; reflexivity]. exact Hkv.
    + rewrite Hkv. cbn [truthy negb].
      eexists. split; [|left; reflexivity]. reflexivity.
  - exists w. split; [exact Hkv | right; eexists; reflexivity].
Qed.

(** A write stores its argument or, failing, nothing. *)
Lemma write_outcome (v : value) (w : World) :
  exists r w1,
    writeProducts v w = (r, w1)
    /\ (kv_products w1 = v \/ kv_products w1 = kv_products w).
Proof.
  unfold writeProducts, try_catch, redis_set, throw.
  destruct (redis_ready w); cbn [negb].
  - destruct (next_fault w); eexists; eexists; split;
      try reflexivity; [right | left]; reflexivity.
  - eexists. eexists. split; [reflexivity | right; reflexivity].
Qed.

Lemma well_formed_same (w w' : World) :
  kv_products w' = kv_products w ->
  well_formed_store w -> well_formed_store w'.
Proof. intros Heq (ps & Hkv & Hps). exists ps. rewrite Heq. auto. Qed.

Lemma handle_post_keeps (req : Request) :
  keeps well_formed_store (handle_post JSON_parse req).
Proof.
  intros w (ps & Hkv & Hps).
  assert (Hw : well_formed_store w) by (exists ps; auto).
  unfold handle_post, try_catch at 1, bind, lift, ret, Date_now.
  destruct (get_prop (body req) "title") as [title|e]; [|exact Hw].
  destruct (get_prop (body req) "imageUrl") as [imageUrl|e]; [|exact Hw].
  destruct (get_prop (body req) "description") as [description|e];
    [|exact Hw].
  destruct (get_prop (body req) "productUrl") as [productUrl|e]; [|exact Hw].
  destruct (negb (truthy title) || negb (truthy productUrl))%bool;
    [exact Hw|].
  destruct (read_well_formed w ps Hkv) as (w1 & Hkv1 & [Hread | [e Hread]]);
    rewrite Hread; cbn [as_array fst snd].
  - match goal with |- context [writeProducts ?v w1] =>
      destruct (write_outcome v w1) as (r & w2 & Hwrite & Hkv2);
      rewrite Hwrite
    end.
    assert (Hw2 : well_formed_store w2).
    { destruct Hkv2 as [Hkv2 | Hkv2].
      - eexists. split; [exact Hkv2|].
        apply Forall_app. split; [exact Hps|].
        constructor; [reflexivity | constructor].
      - exists ps. rewrite Hkv2. auto. }
    destruct r; exact Hw2.
  - exists ps. auto.
Qed.

Lemma deleteProductsByIds_keeps (ids : list value) :
  keeps well_formed_store (deleteProductsByIds JSON_parse ids).
Proof.
  intros w (ps & Hkv & Hps).
  unfold deleteProductsByIds, try_catch, bind, lift, ret, throw.
  destruct (read_well_formed w ps Hkv) as (w1 & Hkv1 & [Hread | [e Hread]]);
    rewrite Hread; cbn [as_array fst snd]; [|exists ps; auto].
  pose proof (id_listed_total ids ps Hps) as Hlisted.
  rewrite (filter_r_total _ (fun p => negb (includes ids (prop "id" p))) ps).
  2:{ revert Hlisted. apply Forall_impl. intros p Hp. rewrite Hp.
      reflexivity. }
  match goal with |- context [writeProducts ?v w1] =>
    destruct (write_outcome v w1) as (r & w2 & Hwrite & Hkv2);
    rewrite Hwrite
  end.
  assert (Hw2 : well_formed_store w2).
  { destruct Hkv2 as [Hkv2 | Hkv2].
    - eexists. split; [exact Hkv2|]. apply Forall_filter. exact Hps.
    - exists ps. rewrite Hkv2. auto. }
  destruct r; [|exact Hw2].
  destruct (filter_r (id_listed ids) ps) as [listed|e]; [|exact Hw2].
  destruct (map_r _ listed) as [gone|e]; exact Hw2.
Qed.

Lemma handle_delete_keeps (req : Request) :
  keeps well_formed_store (handle_delete JSON_parse req).
Proof.
  intros w Hw.
  unfold handle_delete, try_catch at 1, bind at 1, lift, ret.
  destruct (get_prop (body req) "ids") as [ids|e]; [|exact Hw].
  destruct (negb (truthy ids) || negb (is_array ids)
            || Nat.eqb (length (array_items ids)) 0)%bool; [exact Hw|].
  unfold bind.
  pose proof (deleteProductsByIds_keeps (array_items ids) w Hw) as Hdel.
  destruct (deleteProductsByIds JSON_parse (array_items ids) w)
    as [[r|e] w1]; exact Hdel.
Qed.

(** X20. The handler keeps the catalog well formed: if the key holds an
    array of values that are not [null] or [undefined], it does so after any
    request, answered with success or with an error, whether the calls to
    the store succeed or fail. *)
Theorem well_formed_store_kept (req : Request) (w : World) :
  well_formed_store w ->
  well_formed_store (snd (handler JSON_parse toLowerCase req w)).
Proof.
  intros Hw.
  destruct Hw as (ps & Hkv & Hps).
  assert (Hw : well_formed_store w) by (exists ps; auto).
  unfold handler.
  destruct (method req =? "OPTIONS")%string; [exact Hw|].
  unfold bind at 1.
  destruct (method req =? "GET")%string eqn:Hget.
  - unfold ret at 1. cbn [negb]. unfold try_catch.
    pose proof (handle_get_world JSON_parse toLowerCase req w) as Hworld.
    destruct (read_well_formed w ps Hkv) as (w1 & Hkv1 & Hread).
    assert (Hsnd : snd (readProducts JSON_parse w) = w1)
      by (destruct Hread as [-> | [e ->]]; reflexivity).
    rewrite Hsnd in Hworld.
    destruct (handle_get JSON_parse toLowerCase req w) as [[r|e] w2];
      cbn [snd] in *; subst w2; exists ps; auto.
  - rewrite validateApiKey_value.
    destruct (development w || same_origin req
              || strict_equals (api_key_of req) (env_value (API_KEY w)))%bool;
      cbn [negb]; [|exact Hw].
    unfold try_catch.
    destruct (method req =? "POST")%string.
    { pose proof (handle_post_keeps req w Hw) as Hpost.
      destruct (handle_post JSON_parse req w) as [[r|e] w1]; exact Hpost. }
    destruct (method req =? "DELETE")%string.
    { pose proof (handle_delete_keeps req w Hw) as Hdel.
      destruct (handle_delete JSON_parse req w) as [[r|e] w1]; exact Hdel. }
    exact Hw.
Qed.

End Invariant.

(** ** Identifiers and the start-up log *)

Lemma to_int_not_nil (n : Z) : Z.to_int n <> Decimal.Pos Decimal.Nil
                               /\ Z.to_int n <> Decimal.Neg Decimal.Nil.
Proof.
  destruct n as [|p|p]; simpl; split; try discriminate; intros H;
    inversion H as [Hp]; exact (Unsigned.to_uint_nonnil p Hp).
Qed.

Lemma string_of_Z_inj (n m : Z) : string_of_Z n = string_of_Z m -> n = m.
Proof.
  unfold string_of_Z. intros H.
  destruct (to_int_not_nil n) as [Hn1 Hn2].
  destruct (to_int_not_nil m) as [Hm1 Hm2].
  pose proof (NilZero.isi (Z.to_int n) Hn1 Hn2) as Pn.
  pose proof (NilZero.isi (Z.to_int m) Hm1 Hm2) as Pm.
  rewrite H in Pn. rewrite Pn in Pm. inversion Pm as [Heq].
  apply to_int_inj. exact Heq.
Qed.

(** X21. The id of a created product determines the clock reading it was
    made from: two products have the same id exactly when they were created
    at the same reading, whatever their other fields. *)
Theorem product_ids_follow_clock
        (n m : Z) (t i d u t' i' d' u' : value) :
  prop "id" (newProduct n t i d u) = prop "id" (newProduct m t' i' d' u')
  <-> n = m.
Proof.
  cbn [prop newProduct lookup String.eqb Ascii.eqb Bool.eqb]. split.
  - intros H. inversion H as [Hs]. apply string_of_Z_inj. exact Hs.
  - intros ->. reflexivity.
Qed.

Lemma substring_length_le (n : nat) (s : string) :
  (String.length (substring 0 n s) <= n)%nat.
Proof.
  revert s. induction n as [|n IH]; intros s.
  - destruct s; simpl; lia.
  - destruct s as [|c s]; simpl; [lia|]. specialize (IH s). lia.
Qed.

Lemma substring_is_prefix (n : nat) (s : string) :
  exists rest, s = (substring 0 n s ++ rest)%string.
Proof.
  revert s. induction n as [|n IH]; intros s.
  - exists s. destruct s; reflexivity.
  - destruct s as [|c s]; simpl; [exists ""; reflexivity|].
    destruct (IH s) as [rest Hrest]. exists rest. now rewrite <- Hrest.
Qed.

Lemma string_length_app (a b : string) :
  String.length (a ++ b) = (String.length a + String.length b)%nat.
Proof. induction a as [|c a IH]; simpl; [reflexivity | now rewrite IH]. Qed.

(** X22. The line logged at start-up shows at most the first 15 characters
    of the store URL, followed by three dots, and the word [undefined] when
    the URL is unset or empty: never more than 18 characters. *)
Theorem partialUrl_reveals_prefix (url : option string) :
  (String.length (partialUrl url) <= 18)%nat
  /\ (truthy (env_value url) = false -> partialUrl url = "undefined")
  /\ (forall u, url = Some u -> u <> "" ->
       exists shown rest,
         partialUrl url = (shown ++ "...")%string
         /\ u = (shown ++ rest)%string
         /\ (String.length shown <= 15)%nat).
Proof.
  split; [|split].
  - unfold partialUrl. destruct url as [u|]; simpl; [|lia].
    destruct (u =? "")%string; simpl; [lia|].
    rewrite string_length_app. pose proof (substring_length_le 15 u).
    simpl. lia.
  - unfold partialUrl. intros ->. reflexivity.
  - intros u -> Hu. destruct (substring_is_prefix 15 u) as [rest Hrest].
    exists (substring 0 15 u), rest. split; [|split].
    + unfold partialUrl. simpl.
      apply String.eqb_neq in Hu. rewrite Hu. reflexivity.
    + exact Hrest.
    + apply substring_length_le.
Qed.

(** * The further properties at the sample data *)

Lemma unknown_method_gated_witness :
  handler sample_parse toLowerCase_ascii put_mug w_stored
  = (Ok (mkResponse 405 (cors ++ [allow_header])
           (Text "Method PUT Not Allowed")), w_stored).
Proof.
  destruct (unknown_method_gated sample_parse toLowerCase_ascii put_mug w_stored)
    as [_ Hallowed]; try discriminate.
  apply Hallowed. reflexivity.
Defined.

Lemma get_ignores_credentials_witness :
  handler sample_parse toLowerCase_ascii get_102 w_stored
  = handler sample_parse toLowerCase_ascii get_102_keyed w_stored.
Proof.
  destruct (get_ignores_credentials sample_parse toLowerCase_ascii get_102 get_102_keyed
              w_stored eq_refl eq_refl eq_refl) as [Hsame _].
  exact Hsame.
Defined.

Lemma gate_open_without_key_witness :
  validateApiKey post_from_site w_stored = Ok true.
Proof.
  destruct (gate_open_without_key sample_parse toLowerCase_ascii post_from_site w_stored)
    as [Hgate _]; [|exact Hgate].
  right. split; [discriminate|]. right.
  exists "https://", "/admin". reflexivity.
Defined.

Lemma store_unavailable_witness :
  handler sample_parse toLowerCase_ascii get_all w_down
  = (Ok (respond 500 (error_body "Server error"
           (JsError "Database connection not available"))), w_down).
Proof.
  destruct (store_unavailable sample_parse toLowerCase_ascii get_all w_down eq_refl)
    as [Hget _].
  apply Hget. reflexivity.
Defined.

Lemma read_twice_same_witness :
  exists w1 w2,
    readProducts sample_parse w_stored = (Ok (VArr [blue_shirt; red_hat]), w1)
    /\ readProducts sample_parse w1 = (Ok (VArr [blue_shirt; red_hat]), w2).
Proof.
  destruct (read_twice_same sample_parse w_stored eq_refl eq_refl eq_refl
              eq_refl) as (w1 & w2 & H1 & H2 & _).
  exists w1, w2. split; assumption.
Defined.

Lemma seeding_at_most_once_witness :
  exists w1 w2,
    readProducts sample_parse w_absent = (Ok (VArr [seed_product]), w1)
    /\ readProducts sample_parse w1 = (Ok (VArr [seed_product]), w2)
    /\ io_log w2 = [RedisGet; FsReadFile; RedisSet (VArr [seed_product]);
                    RedisGet].
Proof.
  destruct (seeding_at_most_once sample_parse w_absent seed_text
              (VArr [seed_product]) eq_refl eq_refl eq_refl eq_refl eq_refl
              eq_refl eq_refl eq_refl)
    as (w1 & w2 & H1 & H2 & _ & Hlog1 & Hlog2).
  exists w1, w2. split; [exact H1|]. split; [exact H2|].
  rewrite Hlog2, Hlog1. reflexivity.
Defined.

Lemma failed_seeding_is_retried_witness :
  exists w1 w2,
    readProducts sample_parse w_absent_write_fails = (Ok (VArr []), w1)
    /\ readProducts sample_parse w1 = (Ok (VArr [seed_product]), w2).
Proof.
  destruct (failed_seeding_is_retried sample_parse w_absent_write_fails
              seed_text (VArr [seed_product]) eq_refl eq_refl eq_refl eq_refl
              eq_refl eq_refl eq_refl eq_refl)
    as (w1 & w2 & H1 & _ & H2 & _).
  exists w1, w2. split; assumption.
Defined.

Lemma write_then_read_witness :
  exists w1 w2,
    writeProducts (VArr [red_hat]) w_stored = (Ok tt, w1)
    /\ readProducts sample_parse w1 = (Ok (VArr [red_hat]), w2).
Proof.
  destruct (write_then_read sample_parse (VArr [red_hat]) w_stored
              eq_refl eq_refl eq_refl eq_refl) as (w1 & w2 & H1 & H2 & _).
  exists w1, w2. split; assumption.
Defined.

Lemma post_then_get_by_id_witness :
  exists product w1 w2,
    handler sample_parse toLowerCase_ascii post_mug w_stored
    = (Ok (respond 201 (Json product)), w1)
    /\ handler sample_parse toLowerCase_ascii get_new w1
       = (Ok (respond 200 (Json product)), w2).
Proof.
  destruct (post_then_get_by_id sample_parse toLowerCase_ascii post_mug get_new w_stored
              [blue_shirt; red_hat])
    as (product & w1 & w2 & H1 & H2 & _); try reflexivity.
  - repeat constructor.
  - intros p [<- | [<- | []]]; reflexivity.
  - exists product, w1, w2. split; assumption.
Defined.

Lemma deleted_id_not_found_witness :
  exists r w1 w2,
    deleteProductsByIds sample_parse [VStr "101"] w_stored = (Ok r, w1)
    /\ getProductById sample_parse (VStr "101") w1 = (Ok VNull, w2).
Proof.
  apply (deleted_id_not_found sample_parse [VStr "101"]
           [blue_shirt; red_hat] (VStr "101") w_stored);
    try reflexivity.
  repeat constructor.
Defined.

Lemma delete_twice_witness :
  exists r1 w1 r2 w2,
    deleteProductsByIds sample_parse [VStr "101"] w_stored = (Ok r1, w1)
    /\ deleteProductsByIds sample_parse [VStr "101"] w1 = (Ok r2, w2)
    /\ deletedCount r1 = 1%nat
    /\ deletedCount r2 = 0%nat.
Proof.
  destruct (delete_twice sample_parse [VStr "101"] [blue_shirt; red_hat]
              w_stored) as (r1 & w1 & r2 & w2 & H1 & H2 & Hc & _);
    try reflexivity.
  - repeat constructor.
  - exists r1, w1, r2, w2. split; [exact H1|]. split; [exact H2|].
    split; [|exact Hc].
    vm_compute in H1. inversion H1. reflexivity.
Defined.

Lemma delete_request_summary_witness :
  exists w',
    handler sample_parse toLowerCase_ascii delete_999 w_stored
    = (Ok (respond 200 (Json (VObj
         [ ("message", VStr "Successfully deleted 0 products");
           ("deletedCount", VNum 0);
           ("deletedIds", VArr []);
           ("remainingCount", VNum 2) ]))), w')
    /\ kv_products w' = VArr [blue_shirt; red_hat].
Proof.
  destruct (delete_request_summary sample_parse toLowerCase_ascii delete_999 w_stored
              (VStr "999") [] [blue_shirt; red_hat])
    as (w' & Hrun & Hkv & _); try reflexivity.
  - repeat constructor.
  - exists w'. split; [exact Hrun | exact Hkv].
Defined.

Lemma post_write_failure_witness :
  exists w',
    handler sample_parse toLowerCase_ascii post_mug w_write_fails
    = (Ok (respond 500 (error_body "Error adding product"
             (JsError "Failed to save product data."))), w')
    /\ kv_products w' = VArr [blue_shirt; red_hat].
Proof.
  apply (post_write_failure sample_parse toLowerCase_ascii post_mug w_write_fails
           [blue_shirt; red_hat]); reflexivity.
Defined.

Lemma non_array_catalog_witness :
  exists r w',
    handler sample_parse toLowerCase_ascii post_mug w_object = (Ok r, w')
    /\ status r = 500
    /\ kv_products w' = kv_products w_object
    /\ io_log w' = [RedisGet].
Proof.
  apply (non_array_catalog sample_parse toLowerCase_ascii post_mug w_object);
    try reflexivity.
  left. repeat split.
Defined.

Lemma repeated_query_parameter_witness :
  (exists r,
      handler sample_parse toLowerCase_ascii get_two_ids w_stored
      = (Ok r, snd (readProducts sample_parse w_stored))
      /\ status r = 404)
  /\ handler sample_parse toLowerCase_ascii get_two_titles w_stored
     = (Ok (respond 500 (error_body "Server error"
              (TypeError "searchTerm.toLowerCase is not a function"))),
        snd (readProducts sample_parse w_stored)).
Proof.
  split.
  - destruct (repeated_query_parameter sample_parse toLowerCase_ascii get_two_ids w_stored
                (snd (readProducts sample_parse w_stored))
                [blue_shirt; red_hat] eq_refl eq_refl) as [Hid _].
    apply (Hid [VStr "101"; VStr "102"] eq_refl). repeat constructor.
  - destruct (repeated_query_parameter sample_parse toLowerCase_ascii
                get_two_titles w_stored
                (snd (readProducts sample_parse w_stored))
                [blue_shirt; red_hat] eq_refl eq_refl) as [_ Htitle].
    apply (Htitle [VStr "shirt"; VStr "hat"]); reflexivity.
Defined.

Lemma search_term_case_irrelevant_witness :
  searchProductsByTitle sample_parse toLowerCase_ascii (VStr "SHIRT") w_stored
  = searchProductsByTitle sample_parse toLowerCase_ascii (VStr "shirt") w_stored.
Proof.
  apply (search_term_case_irrelevant sample_parse toLowerCase_ascii
           "SHIRT" "shirt" w_stored).
  - exact toLowerCase_ascii_empty.
  - reflexivity.
Defined.

Lemma get_is_one_read_witness :
  kv_products (snd (handler sample_parse toLowerCase_ascii get_102 w_stored))
  = VArr [blue_shirt; red_hat]
  /\ io_log (snd (handler sample_parse toLowerCase_ascii get_102 w_stored)) = [RedisGet].
Proof.
  destruct (get_is_one_read sample_parse toLowerCase_ascii get_102 w_stored eq_refl)
    as [_ Hstored].
  apply Hstored; reflexivity.
Defined.

Lemma well_formed_store_kept_witness :
  well_formed_store (snd (handler sample_parse toLowerCase_ascii post_mug w_stored)).
Proof.
  apply (well_formed_store_kept sample_parse toLowerCase_ascii post_mug w_stored).
  exists [blue_shirt; red_hat]. split; [reflexivity | repeat constructor].
Defined.
